(** * Stock ledger of the inventory application

    Shallow embedding of the stock-movement code of the application:
    - the relational store ([public.products], [public.movements]) and the
      client calls made against it,
    - the movement form handler [handleSubmit] of the Movements page,
    - the history filter [filterMovements] of the History page,
    - the low-stock selection of the Dashboard page.

    Integers of the store ([INTEGER] columns, JavaScript numbers holding
    integers) are [Z]; text is [string]; rows are records; the products
    table is a finite map from the primary key to the row. *)

From Stdlib Require Import ZArith String Ascii.
From stdpp Require Import gmap strings list fin_maps sorting.

Local Open Scope Z_scope.

(** ** The relational store *)

(** [type TEXT CHECK (type IN ('entrada', 'saida'))], and the union type
    ["entrada" | "saida"] of the form. *)
Inductive MovementType : Set := entrada | saida.

#[global] Instance MovementType_eq_dec : EqDecision MovementType.
Proof. solve_decision. Defined.

(** A row of [public.products], without its primary key (the key of the
    map) and without the columns no modelled function reads: the
    descriptive ones, [created_at], [created_by], and [updated_at], which
    a trigger sets to [now()] at every update of the row. *)
Module ProductRow.
Record t : Set := mk {
  name : string;
  category : string;
  quantity : Z;
  min_stock : Z
}.

Definition set_quantity (q : Z) (r : t) : t :=
  {| name := name r; category := category r; quantity := q;
     min_stock := min_stock r |}.
End ProductRow.

(** A row of [public.movements]. [id] and [created_at] are filled by the
    column defaults ([gen_random_uuid()], [now()]). *)
Module MovementRow.
Record t : Set := mk {
  id : string;
  product_id : string;
  type : MovementType;
  quantity : Z;
  responsible_id : string;
  responsible_name : string;
  notes : option string;
  created_at : string
}.
End MovementRow.

(** The object passed to [insert] by the form handler. *)
Module MovementInsert.
Record t : Set := mk {
  product_id : string;
  type : MovementType;
  quantity : Z;
  responsible_id : string;
  responsible_name : string;
  notes : option string
}.
End MovementInsert.

(** What the environment decides for one submission: whether each network
    call reports an error, and the values of the column defaults. *)
Module Env.
Record t : Set := mk {
  update_error : bool;
  insert_error : bool;
  fetch_error : bool;
  gen_random_uuid : string;
  now : string
}.
End Env.

(** The record with the three columns read by
    [select("id, name, quantity")]. *)
Module Product.
Record t : Set := mk { id : string; name : string; quantity : Z }.
End Product.

Module Db.

Record t : Type := mk {
  products : gmap string ProductRow.t;
  movements : list MovementRow.t
}.

(** Result of a call: the store after it, or the [error] field set. A call
    that reports an error has not been applied. *)
Inductive result : Type :=
| Ok (db : t)
| Error.

(** [from("products").update({ quantity }).eq("id", pid)]: every row whose
    key is [pid] gets the new quantity; no matching row is not an error. *)
Definition update_quantity (failing : bool) (pid : string) (q : Z) (db : t)
  : result :=
  if failing then Error
  else Ok {| products := alter (ProductRow.set_quantity q) pid (products db);
             movements := movements db |}.

Definition stored (id now : string) (r : MovementInsert.t) : MovementRow.t :=
  {| MovementRow.id := id;
     MovementRow.product_id := MovementInsert.product_id r;
     MovementRow.type := MovementInsert.type r;
     MovementRow.quantity := MovementInsert.quantity r;
     MovementRow.responsible_id := MovementInsert.responsible_id r;
     MovementRow.responsible_name := MovementInsert.responsible_name r;
     MovementRow.notes := MovementInsert.notes r;
     MovementRow.created_at := now |}.

(** [from("movements").insert([row])] by the session of [uid]. The insert
    policy requires [auth.uid() = responsible_id]; [product_id] references
    [products(id)]. Any other cause of failure is the [failing] flag. *)
Definition insert_movement (failing : bool) (uid : string) (id now : string)
    (r : MovementInsert.t) (db : t) : result :=
  if failing then Error
  else if negb (bool_decide (uid = MovementInsert.responsible_id r)) then Error
  else match products db !! MovementInsert.product_id r with
       | None => Error
       | Some _ =>
           Ok {| products := products db;
                 movements := movements db ++ [stored id now r] |}
       end.

(** [from("products").select("id, name, quantity").order("name")]. *)
Definition by_name (a b : Product.t) : Prop :=
  String.leb (Product.name a) (Product.name b) = true.

#[global] Instance by_name_dec a b : Decision (by_name a b).
Proof. unfold by_name. apply _. Defined.

Definition select_products (db : t) : list Product.t :=
  merge_sort by_name
    ((λ kv, Product.mk kv.1 (ProductRow.name kv.2) (ProductRow.quantity kv.2))
       <$> map_to_list (products db)).

(** The stored quantity of a product, if the product exists. *)
Definition quantity_of (pid : string) (db : t) : option Z :=
  ProductRow.quantity <$> products db !! pid.

End Db.

(** ** The Movements page *)

Module User.
Record t : Set := mk { id : string }.
End User.

Module Profile.
Record t : Set := mk { full_name : string }.
End Profile.

Module FormData.
Record t : Set := mk {
  product_id : string;
  type : MovementType;
  quantity : Z;
  notes : string
}.
End FormData.

Inductive Toast : Set :=
| toast_error (msg : string)
| toast_success (msg : string).

#[global] Instance Toast_eq_dec : EqDecision Toast.
Proof. solve_decision. Defined.

Module Movements.

(** The state of the component: its [useState] cells and the [user] of
    [useAuth]. *)
Record State : Type := mk {
  products : list Product.t;
  dialogOpen : bool;
  profile : option Profile.t;
  user : option User.t;
  formData : FormData.t
}.

Definition setProducts (ps : list Product.t) (st : State) : State :=
  {| products := ps; dialogOpen := dialogOpen st; profile := profile st;
     user := user st; formData := formData st |}.

Definition setDialogOpen (b : bool) (st : State) : State :=
  {| products := products st; dialogOpen := b; profile := profile st;
     user := user st; formData := formData st |}.

Definition setFormData (fd : FormData.t) (st : State) : State :=
  {| products := products st; dialogOpen := dialogOpen st;
     profile := profile st; user := user st; formData := fd |}.

Definition resetForm (st : State) : State :=
  setFormData (FormData.mk "" entrada 1 "") st.

(** The result of a handler: the toasts shown, in order, the component
    state and the store. *)
Definition Outcome : Type := list Toast * State * Db.t.

(** [fetchProducts]: the list becomes the rows of the store; when the
    call reports an error a toast is shown and the list stays as it is. *)
Definition fetchProducts (env : Env.t) (st : State) (db : Db.t)
  : list Toast * State :=
  if Env.fetch_error env then ([toast_error "Erro ao carregar produtos"], st)
  else ([], setProducts (Db.select_products db) st).

(** [formData.notes || null] *)
Definition notes_or_null (s : string) : option string :=
  if bool_decide (s = "") then None else Some s.

(** [products.find((p) => p.id === pid)] *)
Definition find_product (pid : string) (ps : list Product.t)
  : option Product.t :=
  List.find (λ p, bool_decide (Product.id p = pid)) ps.

(** The new quantity, computed from the quantity the list shows. *)
Definition newQuantity (fd : FormData.t) (selectedProduct : Product.t) : Z :=
  match FormData.type fd with
  | entrada => Product.quantity selectedProduct + FormData.quantity fd
  | saida => Product.quantity selectedProduct - FormData.quantity fd
  end.

(** The row given to [insert]. *)
Definition movement_of (fd : FormData.t) (u : User.t) (pr : Profile.t)
  : MovementInsert.t :=
  {| MovementInsert.product_id := FormData.product_id fd;
     MovementInsert.type := FormData.type fd;
     MovementInsert.quantity := FormData.quantity fd;
     MovementInsert.responsible_id := User.id u;
     MovementInsert.responsible_name := Profile.full_name pr;
     MovementInsert.notes := notes_or_null (FormData.notes fd) |}.

(** The submit handler of the movement form. The checks come first, each
    ending the handler with a toast; then the balance update and the
    insertion of the movement, one awaited after the other, an error of
    either going to the [catch]. The reload started at the end is taken
    when it has settled. *)
Definition handleSubmit (env : Env.t) (st : State) (db : Db.t) : Outcome :=
  match user st, profile st with
  | Some u, Some pr =>
    let fd := formData st in
    match find_product (FormData.product_id fd) (products st) with
    | None => ([toast_error "Produto não encontrado"], st, db)
    | Some selectedProduct =>
      if bool_decide (FormData.type fd = saida)
         && (Product.quantity selectedProduct <? FormData.quantity fd)
      then ([toast_error "Quantidade insuficiente em estoque"], st, db)
      else
        match Db.update_quantity (Env.update_error env)
                (FormData.product_id fd) (newQuantity fd selectedProduct) db
        with
        | Db.Error => ([toast_error "Erro ao registrar movimentação"], st, db)
        | Db.Ok db1 =>
          match Db.insert_movement (Env.insert_error env) (User.id u)
                  (Env.gen_random_uuid env) (Env.now env)
                  (movement_of fd u pr) db1
          with
          | Db.Error =>
              ([toast_error "Erro ao registrar movimentação"], st, db1)
          | Db.Ok db2 =>
              let '(ts, st') :=
                fetchProducts env (resetForm (setDialogOpen false st)) db2 in
              (toast_success "Movimentação registrada com sucesso!" :: ts,
               st', db2)
          end
        end
    end
  | _, _ => ([toast_error "Usuário não autenticado"], st, db)
  end.

Definition toasts (o : Outcome) : list Toast := o.1.1.
Definition state_after (o : Outcome) : State := o.1.2.
Definition db_after (o : Outcome) : Db.t := o.2.

Definition success_toast : Toast :=
  toast_success "Movimentação registrada com sucesso!".

(** A submission succeeded when the handler reached [toast.success]. *)
Definition succeeded (o : Outcome) : Prop :=
  head (toasts o) = Some success_toast.

(** The guard of the stock validation. *)
Definition insufficient (fd : FormData.t) (selectedProduct : Product.t)
  : Prop :=
  FormData.type fd = saida ∧
  Product.quantity selectedProduct < FormData.quantity fd.

(** The product list shows the stored quantity of [pid]. *)
Definition in_sync (pid : string) (st : State) (db : Db.t) : Prop :=
  Product.quantity <$> find_product pid (products st) = Db.quantity_of pid db.


(** The store after the balance update of [handleSubmit]. *)
Definition db_updated (fd : FormData.t) (selectedProduct : Product.t)
    (db : Db.t) : Db.t :=
  Db.mk (alter (ProductRow.set_quantity (newQuantity fd selectedProduct))
               (FormData.product_id fd) (Db.products db))
        (Db.movements db).

(** The store after both writes of [handleSubmit]. *)
Definition db_recorded (env : Env.t) (fd : FormData.t) (u : User.t)
    (pr : Profile.t) (selectedProduct : Product.t) (db : Db.t) : Db.t :=
  Db.mk (Db.products (db_updated fd selectedProduct db))
        (Db.movements db
         ++ [Db.stored (Env.gen_random_uuid env) (Env.now env)
               (movement_of fd u pr)]).

(** The paths through [handleSubmit], one constructor for each [return],
    for the [catch] after each [throw], and for the normal end. *)
Inductive path (env : Env.t) (st : State) (db : Db.t) : Outcome → Prop :=
| path_unauthenticated :
    user st = None ∨ profile st = None →
    path env st db ([toast_error "Usuário não autenticado"], st, db)
| path_not_found u pr :
    user st = Some u → profile st = Some pr →
    find_product (FormData.product_id (formData st)) (products st) = None →
    path env st db ([toast_error "Produto não encontrado"], st, db)
| path_insufficient u pr p :
    user st = Some u → profile st = Some pr →
    find_product (FormData.product_id (formData st)) (products st) = Some p →
    insufficient (formData st) p →
    path env st db ([toast_error "Quantidade insuficiente em estoque"], st, db)
| path_update_error u pr p :
    user st = Some u → profile st = Some pr →
    find_product (FormData.product_id (formData st)) (products st) = Some p →
    ¬ insufficient (formData st) p →
    Env.update_error env = true →
    path env st db ([toast_error "Erro ao registrar movimentação"], st, db)
| path_insert_error u pr p :
    user st = Some u → profile st = Some pr →
    find_product (FormData.product_id (formData st)) (products st) = Some p →
    ¬ insufficient (formData st) p →
    Env.update_error env = false →
    Env.insert_error env = true
    ∨ Db.products db !! FormData.product_id (formData st) = None →
    path env st db ([toast_error "Erro ao registrar movimentação"], st,
                    db_updated (formData st) p db)
| path_success u pr p row :
    user st = Some u → profile st = Some pr →
    find_product (FormData.product_id (formData st)) (products st) = Some p →
    ¬ insufficient (formData st) p →
    Env.update_error env = false →
    Env.insert_error env = false →
    Db.products db !! FormData.product_id (formData st) = Some row →
    let db2 := db_recorded env (formData st) u pr p db in
    let r := fetchProducts env (resetForm (setDialogOpen false st)) db2 in
    path env st db (success_toast :: r.1, r.2, db2).

(** The page has a user and a profile: [user && profile]. *)
Definition authenticated (st : State) : Prop :=
  is_Some (user st) ∧ is_Some (profile st).

(** One use of the form: the fields are filled in, then it is submitted. *)
Definition submit (call : Env.t * FormData.t) (st : State) (db : Db.t)
  : Outcome :=
  handleSubmit call.1 (setFormData call.2 st) db.

(** Successive uses of the form on one mounted page. *)
Fixpoint session (calls : list (Env.t * FormData.t)) (st : State) (db : Db.t)
  : list Outcome :=
  match calls with
  | [] => []
  | c :: calls =>
      let o := submit c st db in
      o :: session calls (state_after o) (db_after o)
  end.

(** Submissions from several mounted pages, each with its own state, on
    the one store; the handlers run one after the other. *)
Fixpoint pages (calls : list (Env.t * State)) (db : Db.t) : list Outcome :=
  match calls with
  | [] => []
  | c :: calls =>
      let o := handleSubmit c.1 c.2 db in
      o :: pages calls (db_after o)
  end.

Definition final_db (db : Db.t) (os : list Outcome) : Db.t :=
  default db (db_after <$> last os).

(** Sum of the quantities of the requests of one kind. *)
Definition total (t : MovementType) (calls : list (Env.t * FormData.t)) : Z :=
  foldr (λ c acc,
           if bool_decide (FormData.type c.2 = t)
           then FormData.quantity c.2 + acc else acc) 0 calls.

(** Atomicity of the two writes, at one submission: when the submission
    fails, the store is the one before it. *)
Definition atomic_at (env : Env.t) (st : State) (db : Db.t) : Prop :=
  ¬ succeeded (handleSubmit env st db) →
  db_after (handleSubmit env st db) = db.

(** A call is on product [pid], and the reload of the product list after
    it works. *)
Definition on_product_reloading (pid : string) (c : Env.t * FormData.t)
  : Prop :=
  FormData.product_id c.2 = pid ∧ Env.fetch_error c.1 = false.

(** The running total, at one sequence of calls on product [pid] from a
    page whose list shows the stored quantity [B0]: when all succeed, the
    final quantity is [B0] plus the inbound minus the outbound
    quantities. *)
Definition ledger_sum_at (calls : list (Env.t * FormData.t)) (st : State)
    (db : Db.t) (pid : string) (B0 : Z) : Prop :=
  Forall (λ c, FormData.product_id c.2 = pid) calls →
  in_sync pid st db → Db.quantity_of pid db = Some B0 →
  Forall succeeded (session calls st db) →
  Db.quantity_of pid (final_db db (session calls st db))
  = Some (B0 + total entrada calls - total saida calls).

(** An outbound submission of quantity 1 on product [pid] whose writes
    are accepted. *)
Definition outbound_one (pid : string) (env : Env.t) (fd : FormData.t) : Prop :=
  Env.update_error env = false ∧ Env.insert_error env = false ∧
  FormData.product_id fd = pid ∧ FormData.type fd = saida ∧
  FormData.quantity fd = 1.

(** A page of a signed-in user that loaded its product list from [db0]
    and submits an outbound movement of 1 on [pid]. *)
Definition same_snapshot (db0 : Db.t) (pid : string) (c : Env.t * State)
  : Prop :=
  authenticated c.2 ∧ products c.2 = Db.select_products db0 ∧
  outbound_one pid c.1 (formData c.2).

(** No lost update, at submissions made from pages that all loaded the
    list from [db], where the product has as many units as there are
    submissions: all succeed, the final quantity is 0 and each one has
    logged a movement. *)
Definition no_lost_update_at (calls : list (Env.t * State)) (db : Db.t)
    (pid : string) : Prop :=
  Forall (same_snapshot db pid) calls →
  Db.quantity_of pid db = Some (Z.of_nat (length calls)) →
  Forall succeeded (pages calls db) ∧
  Db.quantity_of pid (final_db db (pages calls db)) = Some 0 ∧
  length (Db.movements (final_db db (pages calls db)))
  = (length (Db.movements db) + length calls)%nat.

(** *** The writes of a submission, one at a time

    [handleSubmit] runs its checks and computes the new quantity before
    its first [await]; the two writes then reach the store at their own
    times, and the writes of other pages can come in between. *)

(** What the part before the first [await] decides to send. *)
Record Requests : Set := mk_requests {
  req_quantity : Z;
  req_uid : string;
  req_movement : MovementInsert.t
}.

Definition requests_of (st : State) : option Requests :=
  match user st, profile st with
  | Some u, Some pr =>
    let fd := formData st in
    match find_product (FormData.product_id fd) (products st) with
    | None => None
    | Some selectedProduct =>
      if bool_decide (FormData.type fd = saida)
         && (Product.quantity selectedProduct <? FormData.quantity fd)
      then None
      else Some {| req_quantity := newQuantity fd selectedProduct;
                   req_uid := User.id u;
                   req_movement := movement_of fd u pr |}
    end
  | _, _ => None
  end.

Inductive Write : Set :=
| update_of (env : Env.t) (r : Requests)
| insert_of (env : Env.t) (r : Requests).

(** The insertion is sent only after an accepted update. *)
Definition writes_of (env : Env.t) (st : State) : list Write :=
  match requests_of st with
  | None => []
  | Some r =>
      if Env.update_error env then [update_of env r]
      else [update_of env r; insert_of env r]
  end.

Definition applied (r : Db.result) (db : Db.t) : Db.t :=
  match r with Db.Ok db' => db' | Db.Error => db end.

Definition apply_write (db : Db.t) (w : Write) : Db.t :=
  match w with
  | update_of env r =>
      applied (Db.update_quantity (Env.update_error env)
                 (MovementInsert.product_id (req_movement r))
                 (req_quantity r) db) db
  | insert_of env r =>
      applied (Db.insert_movement (Env.insert_error env) (req_uid r)
                 (Env.gen_random_uuid env) (Env.now env)
                 (req_movement r) db) db
  end.

Definition run_writes (sched : list Write) (db : Db.t) : Db.t :=
  foldl apply_write db sched.

(** [sched] takes the elements of the lists [ls], each list in its order,
    the lists in any order with respect to one another. *)
Inductive interleaving {A : Type} : list (list A) → list A → Prop :=
| interleaving_done ls :
    Forall (λ l, l = []) ls → interleaving ls []
| interleaving_next ls1 x l ls2 sched :
    interleaving (ls1 ++ l :: ls2) sched →
    interleaving (ls1 ++ (x :: l) :: ls2) (x :: sched).

(** An accepted write of a submission on [pid] whose new quantity is
    [v]. *)
Definition accepted_on (pid : string) (v : Z) (w : Write) : Prop :=
  match w with
  | update_of env r =>
      Env.update_error env = false ∧
      MovementInsert.product_id (req_movement r) = pid ∧ req_quantity r = v
  | insert_of env r =>
      Env.insert_error env = false ∧
      MovementInsert.product_id (req_movement r) = pid ∧
      req_uid r = MovementInsert.responsible_id (req_movement r)
  end.

Definition is_insert (w : Write) : Prop :=
  match w with insert_of _ _ => True | update_of _ _ => False end.

#[global] Instance is_insert_dec w : Decision (is_insert w).
Proof. destruct w; apply _. Defined.

End Movements.


(** ** The History page *)

Module ProductRef.
Record t : Set := mk { name : string; category : string }.
End ProductRef.

Module Movement.
Record t : Set := mk {
  id : string;
  type : string;
  quantity : Z;
  responsible_name : string;
  notes : option string;
  created_at : string;
  products : ProductRef.t
}.
End Movement.

Module History.

Record State : Type := mk {
  movements : list Movement.t;
  filteredMovements : list Movement.t;
  loading : bool;
  searchTerm : string;
  typeFilter : string
}.

Definition setFilteredMovements (ms : list Movement.t) (st : State) : State :=
  {| movements := movements st; filteredMovements := ms;
     loading := loading st; searchTerm := searchTerm st;
     typeFilter := typeFilter st |}.

(** [s.includes(t)]: [t] occurs in [s] at some position. *)
Fixpoint includes (s t : string) : bool :=
  String.prefix t s
  || match s with
     | EmptyString => false
     | String _ s' => includes s' t
     end.

Section filter.

(** [String.prototype.toLowerCase] of the runtime. *)
Variable toLowerCase : string → string.

Definition search_hit (searchTerm : string) (m : Movement.t) : bool :=
  includes (toLowerCase (ProductRef.name (Movement.products m)))
           (toLowerCase searchTerm)
  || includes (toLowerCase (Movement.responsible_name m))
              (toLowerCase searchTerm).

Definition type_hit (typeFilter : string) (m : Movement.t) : bool :=
  bool_decide (Movement.type m = typeFilter).

Definition filterMovements (st : State) : State :=
  let filtered := movements st in
  let filtered :=
    if negb (bool_decide (searchTerm st = ""))
    then List.filter (search_hit (searchTerm st)) filtered
    else filtered in
  let filtered :=
    if negb (bool_decide (typeFilter st = "all"))
    then List.filter (type_hit (typeFilter st)) filtered
    else filtered in
  setFilteredMovements filtered st.

(** What the two filters of [filterMovements] keep, in one test. *)
Definition keeps (st : State) (m : Movement.t) : bool :=
  (bool_decide (searchTerm st = "") || search_hit (searchTerm st) m)
  && (bool_decide (typeFilter st = "all") || type_hit (typeFilter st) m).

(** The filter in the words of its description: [s] contains [t] without
    regard to case. *)
Definition contains_ci (s t : string) : Prop :=
  ∃ pre post : string, toLowerCase s = pre +:+ toLowerCase t +:+ post.

(** A movement is selected when its product name or its responsible name
    contains the search term, if there is one, and its type is the chosen
    one, if one is chosen. *)
Definition selected (searchTerm typeFilter : string) (m : Movement.t) : Prop :=
  (searchTerm ≠ "" →
     contains_ci (ProductRef.name (Movement.products m)) searchTerm
     ∨ contains_ci (Movement.responsible_name m) searchTerm)
  ∧ (typeFilter ≠ "all" → Movement.type m = typeFilter).

End filter.

(** Lower case of the letters A to Z; what [toLowerCase] does on ASCII
    text. *)
Definition ascii_lower (c : ascii) : ascii :=
  let n := nat_of_ascii c in
  if (65 <=? n)%nat && (n <=? 90)%nat then ascii_of_nat (n + 32) else c.

Fixpoint ascii_toLowerCase (s : string) : string :=
  match s with
  | EmptyString => EmptyString
  | String c s' => String (ascii_lower c) (ascii_toLowerCase s')
  end.

(** Newest first: the order of [order("created_at", { ascending: false })],
    on timestamps written in one format. *)
Definition newest_first (a b : Movement.t) : Prop :=
  String.leb (Movement.created_at b) (Movement.created_at a) = true.

End History.

(** ** The Dashboard page *)

Module DashboardProduct.
Record t : Set := mk {
  id : string;
  name : string;
  category : string;
  quantity : Z;
  min_stock : Z
}.
End DashboardProduct.

Module Dashboard.

(** [Array.prototype.sort] with a comparator: a stable sort. *)
Section sort.
Context {A : Type} (compareFn : A → A → Z).

Fixpoint insert_stable (x : A) (l : list A) : list A :=
  match l with
  | [] => [x]
  | y :: l' =>
      if compareFn x y <=? 0 then x :: l else y :: insert_stable x l'
  end.

Definition sort (l : list A) : list A := foldr insert_stable [] l.
End sort.

(** [slice(0, n)] *)
Definition slice0 {A : Type} (n : nat) (l : list A) : list A := take n l.

Definition is_low (p : DashboardProduct.t) : bool :=
  DashboardProduct.quantity p <=? DashboardProduct.min_stock p.

Definition by_quantity (a b : DashboardProduct.t) : Z :=
  DashboardProduct.quantity a - DashboardProduct.quantity b.

(** The order the comparator sorts into. *)
Definition ascending_quantity (a b : DashboardProduct.t) : Prop :=
  DashboardProduct.quantity a ≤ DashboardProduct.quantity b.

(** [(allProducts || []).filter(..).sort(..).slice(0, 5)] *)
Definition lowStock (allProducts : option (list DashboardProduct.t))
  : list DashboardProduct.t :=
  slice0 5 (sort by_quantity (List.filter is_low (default [] allProducts))).

(** [from("products").select("*")]; [None] when the call fails. *)
Definition select_all (failing : bool) (db : Db.t)
  : option (list DashboardProduct.t) :=
  if failing then None
  else Some ((λ kv, DashboardProduct.mk kv.1 (ProductRow.name kv.2)
                      (ProductRow.category kv.2) (ProductRow.quantity kv.2)
                      (ProductRow.min_stock kv.2))
             <$> map_to_list (Db.products db)).

(** The low-stock part of [fetchDashboardData]. *)
Definition lowStockProducts (failing : bool) (db : Db.t)
  : list DashboardProduct.t :=
  lowStock (select_all failing db).

End Dashboard.

(** ** Sample data *)

Module Sample.

Definition db : Db.t :=
  Db.mk (<["p1" := ProductRow.mk "Notebook" "Informatica" 10 5]>
           (<["p2" := ProductRow.mk "Mouse" "Perifericos" 3 5]> ∅))
        [].

Definition env : Env.t := Env.mk false false false "m1" "2024-05-01T10:00:00Z".

(** A mounted Movements page of a signed-in user, its product list loaded
    from [d], with the form filled as [fd]. *)
Definition page (d : Db.t) (fd : FormData.t) : Movements.State :=
  Movements.mk (Db.select_products d) true (Some (Profile.mk "Ana"))
               (Some (User.mk "u1")) fd.

Definition movement (id type responsible created_at product : string)
  : Movement.t :=
  Movement.mk id type 1 responsible None created_at
              (ProductRef.mk product "Informatica").

(** A fetched history, newest first. *)
Definition history : History.State :=
  History.mk
    [movement "m4" "saida" "Ana Souza" "2024-05-04T09:00:00Z" "Mouse";
     movement "m3" "entrada" "Ana Souza" "2024-05-03T09:00:00Z" "Notebook";
     movement "m2" "saida" "Bruno Lima" "2024-05-02T09:00:00Z" "Teclado";
     movement "m1" "saida" "ANA SOUZA" "2024-05-01T09:00:00Z" "Monitor"]
    [] false "ana" "saida".

Definition stock (id : string) (quantity min_stock : Z) : DashboardProduct.t :=
  DashboardProduct.mk id id "Informatica" quantity min_stock.

Definition allProducts : list DashboardProduct.t :=
  [stock "a" 20 10; stock "b" 7 10; stock "c" 0 5; stock "d" 3 3;
   stock "e" 9 10; stock "f" 2 10; stock "g" 10 10; stock "h" 1 1].

End Sample.

(** ** The store as a whole *)

Module Store.

(** The text kept in the [type] column. *)
Definition type_text (t : MovementType) : string :=
  match t with entrada => "entrada" | saida => "saida" end.

(** [product_id UUID REFERENCES public.products(id)]: every movement is
    the movement of a stored product. *)
Definition references_hold (db : Db.t) : Prop :=
  Forall (λ m, is_Some (Db.products db !! MovementRow.product_id m))
         (Db.movements db).

(** What a logged movement adds to the quantity of its product. *)
Definition signed (m : MovementRow.t) : Z :=
  match MovementRow.type m with
  | entrada => MovementRow.quantity m
  | saida => - MovementRow.quantity m
  end.

(** What the movements of a log add up to for product [pid]. *)
Definition ledger (pid : string) (log : list MovementRow.t) : Z :=
  foldr (λ m acc,
           if bool_decide (MovementRow.product_id m = pid)
           then signed m + acc else acc) 0 log.

(** [from("products").delete().eq("id", pid)]; the movements of the
    product go with it ([ON DELETE CASCADE]). *)
Definition delete_product (failing : bool) (pid : string) (db : Db.t)
  : Db.result :=
  if failing then Db.Error
  else Db.Ok {| Db.products := delete pid (Db.products db);
                Db.movements :=
                  filter (λ m, MovementRow.product_id m ≠ pid)
                         (Db.movements db) |}.

(** A movement with the name and category of its product, as
    [select("*, products(name, category)")] returns it. The reference of
    [product_id] leaves no movement without its product; one that had
    none would have no row here. *)
Definition joined (db : Db.t) (m : MovementRow.t) : option Movement.t :=
  match Db.products db !! MovementRow.product_id m with
  | Some p =>
      Some {| Movement.id := MovementRow.id m;
              Movement.type := type_text (MovementRow.type m);
              Movement.quantity := MovementRow.quantity m;
              Movement.responsible_name := MovementRow.responsible_name m;
              Movement.notes := MovementRow.notes m;
              Movement.created_at := MovementRow.created_at m;
              Movement.products :=
                ProductRef.mk (ProductRow.name p) (ProductRow.category p) |}
  | None => None
  end.

#[global] Instance newest_first_dec a b : Decision (History.newest_first a b).
Proof. unfold History.newest_first. apply _. Defined.

(** [... .order("created_at", { ascending: false })] *)
Definition select_movements (db : Db.t) : list Movement.t :=
  merge_sort History.newest_first (omap (joined db) (Db.movements db)).

End Store.

(** ** The rest of the Movements page *)

Module MovementsPage.

(** The product list shows the store, product by product. *)
Definition synced (st : Movements.State) (db : Db.t) : Prop :=
  ∀ pid, Movements.in_sync pid st db.

(** The rows logged by the successful ones of a sequence of outcomes. *)
Definition successes (os : list Movements.Outcome) : nat :=
  length (filter Movements.succeeded os).

(** The product a page is submitting a movement of. *)
Definition product_of (c : Env.t * Movements.State) : string :=
  FormData.product_id (Movements.formData c.2).

(** A page of a signed-in user about to submit a movement that passes the
    checks, on a product the store has, with no error of the writes. *)
Definition ready (db : Db.t) (c : Env.t * Movements.State) : Prop :=
  Movements.authenticated c.2 ∧
  Env.update_error c.1 = false ∧ Env.insert_error c.1 = false ∧
  is_Some (Db.products db !! product_of c) ∧
  ∃ p, Movements.find_product (product_of c) (Movements.products c.2)
       = Some p
       ∧ ¬ Movements.insufficient (Movements.formData c.2) p.

(** [p] is the first product of the list [ps] whose id is [pid]: the one
    [find] returns. *)
Definition first_with_id (pid : string) (ps : list Product.t) (p : Product.t)
  : Prop :=
  ∃ l1 l2, ps = l1 ++ p :: l2 ∧ Product.id p = pid
           ∧ ∀ x, x ∈ l1 → Product.id x ≠ pid.







(** The stock check against the stored quantity, at one submission: an
    outbound request above the quantity the store has for the product is
    refused with the stock error and nothing is written. *)
Definition stock_check_at (env : Env.t) (st : Movements.State) (db : Db.t)
  : Prop :=
  let fd := Movements.formData st in
  Movements.authenticated st →
  ∀ B, Db.quantity_of (FormData.product_id fd) db = Some B →
       FormData.type fd = saida → B < FormData.quantity fd →
       Movements.handleSubmit env st db
       = ([toast_error "Quantidade insuficiente em estoque"], st, db).

(** The balance update from the stored quantity, at one submission: a
    success leaves the stored quantity plus the requested one for an
    inbound movement, minus it for an outbound one. *)
Definition balance_update_at (env : Env.t) (st : Movements.State)
    (db : Db.t) : Prop :=
  let fd := Movements.formData st in
  Movements.succeeded (Movements.handleSubmit env st db) →
  ∀ B, Db.quantity_of (FormData.product_id fd) db = Some B →
       Db.quantity_of (FormData.product_id fd)
         (Movements.db_after (Movements.handleSubmit env st db))
       = Some (match FormData.type fd with
               | entrada => B + FormData.quantity fd
               | saida => B - FormData.quantity fd
               end).

End MovementsPage.

(** ** The rest of the History page *)

Module HistoryPage.

Definition setMovements (ms : list Movement.t) (st : History.State)
  : History.State :=
  {| History.movements := ms;
     History.filteredMovements := History.filteredMovements st;
     History.loading := History.loading st;
     History.searchTerm := History.searchTerm st;
     History.typeFilter := History.typeFilter st |}.

Definition setLoading (b : bool) (st : History.State) : History.State :=
  {| History.movements := History.movements st;
     History.filteredMovements := History.filteredMovements st;
     History.loading := b;
     History.searchTerm := History.searchTerm st;
     History.typeFilter := History.typeFilter st |}.

Definition setSearchTerm (s : string) (st : History.State) : History.State :=
  {| History.movements := History.movements st;
     History.filteredMovements := History.filteredMovements st;
     History.loading := History.loading st;
     History.searchTerm := s;
     History.typeFilter := History.typeFilter st |}.

Definition setTypeFilter (s : string) (st : History.State) : History.State :=
  {| History.movements := History.movements st;
     History.filteredMovements := History.filteredMovements st;
     History.loading := History.loading st;
     History.searchTerm := History.searchTerm st;
     History.typeFilter := s |}.

(** [fetchMovements]: both lists become the fetched rows; on an error a
    toast is shown and the lists stay; [loading] ends either way. *)
Definition fetchMovements (failing : bool) (db : Db.t) (st : History.State)
  : list Toast * History.State :=
  if failing
  then ([toast_error "Erro ao carregar histórico"], setLoading false st)
  else
    let data := Store.select_movements db in
    ([], setLoading false
           (History.setFilteredMovements data (setMovements data st))).

(** The fetch followed by the effect that runs [filterMovements] when
    [movements] has changed. *)
Definition load (toLowerCase : string → string) (failing : bool) (db : Db.t)
    (st : History.State) : History.State :=
  History.filterMovements toLowerCase (fetchMovements failing db st).2.

End HistoryPage.

(** ** Stock levels as the pages show them *)

Inductive Variant : Set := destructive | warning | success.

Module Status.
Record t : Set := mk { label : string; variant : Variant }.
End Status.

Module DashboardPage.

Definition getStockStatus (quantity minStock : Z) : Status.t :=
  if bool_decide (quantity = 0) then Status.mk "Crítico" destructive
  else if quantity <=? minStock then Status.mk "Baixo" warning
  else Status.mk "Normal" success.

(** The variant of the low-stock card:
    [lowStockProducts.length > 0 ? "warning" : "success"]. *)
Definition card_variant (lowStockProducts : list DashboardProduct.t)
  : Variant :=
  if (0 <? length lowStockProducts)%nat then warning else success.

(** The status shown beside a product of the low-stock list. *)
Definition status_of (p : DashboardProduct.t) : Status.t :=
  getStockStatus (DashboardProduct.quantity p) (DashboardProduct.min_stock p).

(** A row of [recentMovements]: [select("*, products(name)")]. *)
Record RecentMovement : Set := mk_recent {
  recent_id : string;
  recent_type : string;
  recent_quantity : Z;
  recent_responsible_name : string;
  recent_created_at : string;
  recent_product_name : string
}.

Definition recent_of (m : Movement.t) : RecentMovement :=
  {| recent_id := Movement.id m;
     recent_type := Movement.type m;
     recent_quantity := Movement.quantity m;
     recent_responsible_name := Movement.responsible_name m;
     recent_created_at := Movement.created_at m;
     recent_product_name := ProductRef.name (Movement.products m) |}.

Definition recent_first (a b : RecentMovement) : Prop :=
  String.leb (recent_created_at b) (recent_created_at a) = true.

(** [from("movements").select("*, products(name)")
      .order("created_at", { ascending: false }).limit(5)];
    [movements || []] when the call gave no data. *)
Definition recentMovements (failing : bool) (db : Db.t)
  : list RecentMovement :=
  if failing then []
  else recent_of <$> take 5 (Store.select_movements db).

End DashboardPage.

Module ProductsPage.

(** The badge of the stock column: its variant and its text. *)
Definition getStockBadge (quantity minStock : Z) : Status.t :=
  if bool_decide (quantity = 0) then Status.mk "Esgotado" destructive
  else if quantity <=? minStock then Status.mk "Baixo" warning
  else Status.mk "Normal" success.

(** [handleDelete], on the store: nothing without the confirmation; then
    the deletion, with a toast for its result. The reload of the list of
    the page that follows a success reads the store and does not write
    it. *)
Definition handleDelete (confirmed failing : bool) (id : string) (db : Db.t)
  : list Toast * Db.t :=
  if negb confirmed then ([], db)
  else match Store.delete_product failing id db with
       | Db.Ok db' => ([toast_success "Produto excluído com sucesso!"], db')
       | Db.Error => ([toast_error "Erro ao excluir produto"], db)
       end.

End ProductsPage.

(** ** More sample data *)

Module Fixture.

(** The sample store after two movements. *)
Definition db : Db.t :=
  Db.mk (Db.products Sample.db)
        [MovementRow.mk "m1" "p1" entrada 4 "u1" "Ana" None
           "2024-05-01T10:00:00Z";
         MovementRow.mk "m2" "p2" saida 2 "u1" "Ana" (Some "venda")
           "2024-05-02T10:00:00Z"].

Definition history : History.State := History.mk [] [] true "" "all".

(** An outbound movement of 7 units of p1 after which the reload of the
    product list failed: the store has 3 units, the list still shows
    10. *)
Definition sold : Movements.Outcome :=
  Movements.handleSubmit
    (Env.mk false false true "m0" "2024-04-30T10:00:00Z")
    (Sample.page Sample.db (FormData.mk "p1" saida 7 ""))
    Sample.db.

Definition stale_db : Db.t := Movements.db_after sold.

(** The page after it, with the form filled again. *)
Definition stale_page (fd : FormData.t) : Movements.State :=
  Movements.setFormData fd (Movements.state_after sold).

(** The sample store after the deletion of p1. *)
Definition without_p1 : Db.t :=
  Db.mk (delete "p1" (Db.products Sample.db)) [].

End Fixture.

(** ** Facts about the store *)

Section db_facts.
Implicit Types (db : Db.t) (pid : string) (q : Z).

Lemma insert_movement_ok uid id now r db row :
  uid = MovementInsert.responsible_id r →
  Db.products db !! MovementInsert.product_id r = Some row →
  Db.insert_movement false uid id now r db =
  Db.Ok (Db.mk (Db.products db) (Db.movements db ++ [Db.stored id now r])).
Proof.
  intros -> E. unfold Db.insert_movement. simpl.
  rewrite bool_decide_eq_true_2 by done. simpl. by rewrite E.
Qed.

Lemma quantity_of_alter pid q (m : gmap string ProductRow.t) ms row :
  m !! pid = Some row →
  Db.quantity_of pid (Db.mk (alter (ProductRow.set_quantity q) pid m) ms)
  = Some q.
Proof.
  intros E. unfold Db.quantity_of. simpl. rewrite lookup_alter_eq, E. done.
Qed.

End db_facts.

(** ** Facts about [handleSubmit] *)

Section handleSubmit_facts.
Import Movements.
Implicit Types (env : Env.t) (st : State) (db : Db.t) (fd : FormData.t).

Lemma insufficient_guard fd (p : Product.t) :
  bool_decide (FormData.type fd = saida)
  && (Product.quantity p <? FormData.quantity fd) = true
  ↔ insufficient fd p.
Proof.
  unfold insufficient.
  rewrite andb_true_iff, bool_decide_eq_true, Z.ltb_lt. done.
Qed.

(** [handleSubmit] takes exactly one of its paths. *)
Lemma handleSubmit_path env st db : path env st db (handleSubmit env st db).
Proof.
  unfold handleSubmit.
  destruct (user st) as [u|] eqn:Hu; [|constructor; by left].
  destruct (profile st) as [pr|] eqn:Hpr; [|constructor; by right].
  destruct (find_product _ _) as [p|] eqn:Hp;
    [|by eapply path_not_found].
  destruct (bool_decide _ && _) eqn:Hg.
  { eapply path_insufficient; [done..|]. by apply insufficient_guard. }
  assert (¬ insufficient (formData st) p) as Hok.
  { rewrite <- insufficient_guard. by rewrite Hg. }
  destruct (Env.update_error env) eqn:Hue; simpl.
  { by eapply path_update_error. }
  unfold Db.insert_movement. simpl.
  destruct (Env.insert_error env) eqn:Hie.
  { eapply path_insert_error; eauto. }
  rewrite bool_decide_eq_true_2 by done. simpl.
  rewrite lookup_alter_eq.
  destruct (Db.products db !! _) as [row|] eqn:Hrow; simpl.
  - pose proof (path_success env st db u pr p row Hu Hpr Hp Hok Hue Hie Hrow)
      as H.
    simpl in H. unfold db_recorded, db_updated in H. simpl in H.
    destruct (fetchProducts _ _ _) as [ts st'] eqn:Hf. exact H.
  - eapply path_insert_error; eauto.
Qed.

End handleSubmit_facts.

Section single_call.
Import Movements.
Implicit Types (env : Env.t) (st : State) (db : Db.t) (fd : FormData.t).

Lemma not_succeeded_error (m : string) (st' : State) (db' : Db.t) :
  ¬ succeeded ([toast_error m], st', db').
Proof. unfold succeeded, toasts. simpl. discriminate. Qed.

(** What a successful submission has gone through and written. *)
Lemma succeeded_inv env st db :
  succeeded (handleSubmit env st db) →
  ∃ u pr p row,
    user st = Some u ∧ profile st = Some pr ∧
    find_product (FormData.product_id (formData st)) (products st) = Some p ∧
    ¬ insufficient (formData st) p ∧
    Env.update_error env = false ∧ Env.insert_error env = false ∧
    Db.products db !! FormData.product_id (formData st) = Some row ∧
    db_after (handleSubmit env st db)
    = db_recorded env (formData st) u pr p db ∧
    state_after (handleSubmit env st db)
    = (fetchProducts env (resetForm (setDialogOpen false st))
         (db_recorded env (formData st) u pr p db)).2.
Proof.
  intros Hs. pose proof (handleSubmit_path env st db) as H.
  destruct H; try (by apply not_succeeded_error in Hs).
  exists u, pr, p, row. done.
Qed.

(** A submission that passes the checks and whose writes are accepted
    succeeds. *)
Lemma handleSubmit_success env st db u pr p row :
  user st = Some u → profile st = Some pr →
  find_product (FormData.product_id (formData st)) (products st) = Some p →
  ¬ insufficient (formData st) p →
  Env.update_error env = false → Env.insert_error env = false →
  Db.products db !! FormData.product_id (formData st) = Some row →
  succeeded (handleSubmit env st db) ∧
  db_after (handleSubmit env st db) = db_recorded env (formData st) u pr p db.
Proof.
  intros Hu Hpr Hp Hok Hue Hie Hrow.
  pose proof (handleSubmit_path env st db) as H.
  destruct H as [[?|?]| | | | ? ? ? ? ? ? ? ? [?|?] |];
    simplify_eq; try congruence; done.
Qed.

Lemma quantity_of_recorded env fd u pr (p : Product.t) db row :
  Db.products db !! FormData.product_id fd = Some row →
  Db.quantity_of (FormData.product_id fd) (db_recorded env fd u pr p db)
  = Some (newQuantity fd p).
Proof.
  intros Hrow. unfold db_recorded, db_updated, Db.quantity_of. simpl.
  by rewrite lookup_alter_eq, Hrow.
Qed.

(** [find] returns the first product with the id, and nothing when the
    list has none. *)
Lemma find_product_first pid (ps : list Product.t) p :
  find_product pid ps = Some p ↔ MovementsPage.first_with_id pid ps p.
Proof.
  unfold find_product, MovementsPage.first_with_id.
  induction ps as [|x ps IH]; simpl.
  { split; [done|]. intros (l1 & l2 & E & _). by destruct l1. }
  case_bool_decide as Hx.
  - split.
    + intros [= ->]. exists [], ps. split; [done|]. split; [done|].
      intros y Hy. by apply elem_of_nil in Hy.
    + intros ([|y l1] & l2 & E & Hid & Hfirst).
      * by injection E as -> _.
      * injection E as -> _. exfalso. apply (Hfirst y); [left|done].
  - rewrite IH. split.
    + intros (l1 & l2 & -> & Hid & Hfirst). exists (x :: l1), l2.
      split; [done|]. split; [done|].
      intros y [->|Hy]%elem_of_cons; [done|by apply Hfirst].
    + intros ([|y l1] & l2 & E & Hid & Hfirst).
      * injection E as -> _. done.
      * injection E as -> ->. exists l1, l2. split; [done|].
        split; [done|]. intros z Hz. apply Hfirst. by right.
Qed.

Lemma find_product_absent pid (ps : list Product.t) :
  find_product pid ps = None ↔ ∀ x, x ∈ ps → Product.id x ≠ pid.
Proof.
  unfold find_product. induction ps as [|x ps IH]; simpl.
  { split; [|done]. intros _ y Hy. by apply elem_of_nil in Hy. }
  case_bool_decide as Hx.
  - split; [done|]. intros H. exfalso. apply (H x); [left|done].
  - rewrite IH. split.
    + intros H y [->|Hy]%elem_of_cons; [done|by apply H].
    + intros H y Hy. apply H. by right.
Qed.

Lemma first_with_id_unique pid (ps : list Product.t) p p' :
  MovementsPage.first_with_id pid ps p →
  MovementsPage.first_with_id pid ps p' → p = p'.
Proof. rewrite <- !find_product_first. congruence. Qed.

(** An update of the quantity of a product the store does not have
    changes no row. *)
Lemma db_updated_missing fd (p : Product.t) db :
  Db.products db !! FormData.product_id fd = None →
  db_updated fd p db = db.
Proof.
  intros Hnone. unfold db_updated. destruct db as [ps ms]. simpl in *.
  f_equal. apply map_eq. intros k. rewrite lookup_alter.
  case_decide; [|done]. subst. by rewrite Hnone.
Qed.

End single_call.

(** ** The claims about one submission *)

Section claims_single_call.
Import Movements.
Implicit Types (env : Env.t) (st : State) (db : Db.t) (fd : FormData.t).

(** C10. An outbound movement whose quantity equals the quantity of the
    selected product (the stored quantity, when the product list shows
    the store) passes the stock check (the check is a strict "greater
    than"), succeeds when both writes are accepted, and leaves the stored
    quantity of the product at exactly zero. *)
Theorem outbound_of_whole_stock_leaves_zero env st db u pr p row :
  user st = Some u → profile st = Some pr →
  find_product (FormData.product_id (formData st)) (products st) = Some p →
  FormData.type (formData st) = saida →
  FormData.quantity (formData st) = Product.quantity p →
  Env.update_error env = false → Env.insert_error env = false →
  Db.products db !! FormData.product_id (formData st) = Some row →
  ¬ insufficient (formData st) p ∧
  (in_sync (FormData.product_id (formData st)) st db →
   Db.quantity_of (FormData.product_id (formData st)) db
   = Some (FormData.quantity (formData st))) ∧
  succeeded (handleSubmit env st db) ∧
  Db.quantity_of (FormData.product_id (formData st))
    (db_after (handleSubmit env st db)) = Some 0.
Proof.
  intros Hu Hpr Hp Ht Hq Hue Hie Hrow.
  assert (¬ insufficient (formData st) p) as Hok.
  { intros [_ Hlt]. lia. }
  destruct (handleSubmit_success env st db u pr p row) as [Hs ->]; try done.
  split; [done|]. split.
  { unfold in_sync. rewrite Hp, Hq. simpl. by intros <-. }
  split; [done|].
  rewrite (quantity_of_recorded _ _ _ _ _ _ row) by done.
  unfold newQuantity. rewrite Ht. f_equal. lia.
Qed.

Lemma outbound_of_whole_stock_leaves_zero_witness :
  let st := Sample.page Sample.db (FormData.mk "p1" saida 10 "") in
  succeeded (handleSubmit Sample.env st Sample.db) ∧
  Db.quantity_of "p1" (db_after (handleSubmit Sample.env st Sample.db))
  = Some 0.
Proof.
  intros st.
  apply (outbound_of_whole_stock_leaves_zero Sample.env st Sample.db
           (User.mk "u1") (Profile.mk "Ana") (Product.mk "p1" "Notebook" 10)
           (ProductRow.mk "Notebook" "Informatica" 10 5));
    vm_compute; reflexivity.
Defined.

(** C5, as stated, fails: the store has 3 units of p1 and the list of the
    page still shows 10 (its reload failed); an inbound movement of 5
    succeeds and stores 15, not 3 + 5. *)
Lemma stale_list_breaks_balance_update :
  let st := Fixture.stale_page (FormData.mk "p1" entrada 5 "") in
  let o := handleSubmit Sample.env st Fixture.stale_db in
  Db.quantity_of "p1" Fixture.stale_db = Some 3 ∧
  Product.quantity <$> find_product "p1" (products st) = Some 10 ∧
  succeeded o ∧
  Db.quantity_of "p1" (db_after o) = Some 15 ∧
  ¬ MovementsPage.balance_update_at Sample.env st Fixture.stale_db.
Proof.
  intros st o. repeat split; try (vm_compute; reflexivity).
  intros H.
  assert (Db.quantity_of "p1" (db_after o) = Some (3 + 5)) as E.
  { apply (H eq_refl 3). vm_compute. reflexivity. }
  vm_compute in E. discriminate.
Qed.

(** C5, amended. A successful submission sets the stored quantity of the
    product to the quantity the list of the page shows for it (that of
    the first product of the list with the id of the form) plus the
    requested quantity for an inbound movement, minus it for an outbound
    one; when the list shows the stored quantity, that is the stored
    balance plus or minus the requested quantity. It leaves the other
    products alone and appends exactly one movement row carrying the
    product reference, kind and quantity of the form, the id of the user,
    the name of the profile, and the note of the form, or no note when
    that is empty. *)
Theorem successful_submission_effect env st db :
  succeeded (handleSubmit env st db) →
  let fd := formData st in
  let db' := db_after (handleSubmit env st db) in
  ∃ u pr p,
    user st = Some u ∧ profile st = Some pr ∧
    MovementsPage.first_with_id (FormData.product_id fd) (products st) p ∧
    (in_sync (FormData.product_id fd) st db →
     Db.quantity_of (FormData.product_id fd) db = Some (Product.quantity p)) ∧
    Db.quantity_of (FormData.product_id fd) db'
    = Some (match FormData.type fd with
            | entrada => Product.quantity p + FormData.quantity fd
            | saida => Product.quantity p - FormData.quantity fd
            end) ∧
    (∀ pid, pid ≠ FormData.product_id fd →
            Db.products db' !! pid = Db.products db !! pid) ∧
    Db.movements db'
    = Db.movements db
      ++ [MovementRow.mk (Env.gen_random_uuid env) (FormData.product_id fd)
            (FormData.type fd) (FormData.quantity fd) (User.id u)
            (Profile.full_name pr)
            (if decide (FormData.notes fd = "") then None
             else Some (FormData.notes fd))
            (Env.now env)].
Proof.
  intros Hs fd db'.
  destruct (succeeded_inv env st db Hs)
    as (u & pr & p & row & Hu & Hpr & Hp & Hok & Hue & Hie & Hrow & Hdb & _).
  exists u, pr, p. subst fd db'. rewrite Hdb.
  split; [done|]. split; [done|].
  split; [by apply find_product_first|]. split.
  { unfold in_sync. rewrite Hp. simpl. by intros <-. }
  split; [by rewrite (quantity_of_recorded _ _ _ _ _ _ row)|].
  split.
  { intros pid Hne. unfold db_recorded, db_updated. simpl.
    by rewrite lookup_alter_ne. }
  unfold db_recorded, Db.stored, movement_of, notes_or_null. simpl.
  destruct (decide (FormData.notes (formData st) = "")) as [E|E].
  - by rewrite bool_decide_eq_true_2.
  - by rewrite bool_decide_eq_false_2.
Qed.

Lemma successful_submission_effect_witness :
  let st := Sample.page Sample.db (FormData.mk "p1" entrada 5 "reposicao") in
  let db' := db_after (handleSubmit Sample.env st Sample.db) in
  Db.quantity_of "p1" db' = Some 15 ∧
  Db.movements db'
  = [MovementRow.mk "m1" "p1" entrada 5 "u1" "Ana" (Some "reposicao")
       "2024-05-01T10:00:00Z"].
Proof.
  intros st db'.
  destruct (successful_submission_effect Sample.env st Sample.db)
    as (u & pr & p & Hu & Hpr & Hp & _ & Hq & _ & Hm).
  { vm_compute. reflexivity. }
  apply find_product_first in Hp.
  vm_compute in Hu, Hpr, Hp. simplify_eq.
  split; [exact Hq | exact Hm].
Defined.

(** C2, as stated, fails: the store has 3 units of p1 and the list of the
    page still shows 10 (its reload failed); an outbound movement of 5,
    above the stored quantity, is not refused: it succeeds, stores 10 - 5
    and logs a movement. *)
Lemma stale_list_passes_stock_check :
  let st := Fixture.stale_page (FormData.mk "p1" saida 5 "") in
  let o := handleSubmit Sample.env st Fixture.stale_db in
  Db.quantity_of "p1" Fixture.stale_db = Some 3 ∧
  Product.quantity <$> find_product "p1" (products st) = Some 10 ∧
  succeeded o ∧
  Db.quantity_of "p1" (db_after o) = Some 5 ∧
  length (Db.movements (db_after o))
  = S (length (Db.movements Fixture.stale_db)) ∧
  ¬ MovementsPage.stock_check_at Sample.env st Fixture.stale_db.
Proof.
  intros st o. repeat split; try (vm_compute; reflexivity).
  intros H.
  assert (toasts o = [toast_error "Quantidade insuficiente em estoque"])
    as E.
  { subst o. rewrite (H ltac:(split; by eexists) 3); [done|..];
      vm_compute; reflexivity. }
  vm_compute in E. discriminate.
Qed.

(** C2, amended. An outbound submission whose quantity exceeds the
    quantity the list of the page shows for the product (that of the
    first product of the list with the id of the form; the stored
    quantity whenever the list shows the store) ends at the
    insufficient-stock error with the page and the store unchanged: no
    balance, no log entry is written. Consequently a successful outbound
    submission leaves a non-negative stored quantity, and so does a
    successful inbound submission of a non-negative quantity on a product
    listed with a non-negative quantity. *)
Theorem outbound_over_stock_rejected env st db u pr p :
  user st = Some u → profile st = Some pr →
  MovementsPage.first_with_id (FormData.product_id (formData st))
    (products st) p →
  let pid := FormData.product_id (formData st) in
  let rejected :=
    handleSubmit env st db
    = ([toast_error "Quantidade insuficiente em estoque"], st, db) in
  (FormData.type (formData st) = saida →
   Product.quantity p < FormData.quantity (formData st) → rejected) ∧
  (∀ B, in_sync pid st db → Db.quantity_of pid db = Some B →
        FormData.type (formData st) = saida →
        B < FormData.quantity (formData st) → rejected) ∧
  (succeeded (handleSubmit env st db) →
   FormData.type (formData st) = saida
   ∨ 0 ≤ Product.quantity p ∧ 0 ≤ FormData.quantity (formData st) →
   ∃ q, Db.quantity_of pid (db_after (handleSubmit env st db)) = Some q
        ∧ 0 ≤ q).
Proof.
  intros Hu Hpr Hp%find_product_first pid rejected.
  assert (insufficient (formData st) p → rejected) as Hrej.
  { intros Hins. subst rejected.
    pose proof (handleSubmit_path env st db) as H.
    destruct H as [[?|?]| | | |  |]; simplify_eq; done. }
  split; [intros; by apply Hrej|]. split.
  - intros B Hsync HB Ht Hlt. apply Hrej. split; [done|].
    unfold in_sync in Hsync. subst pid. rewrite Hp, HB in Hsync.
    simpl in Hsync. by simplify_eq.
  - intros Hs Hdom.
    destruct (succeeded_inv env st db Hs)
      as (u' & pr' & p' & row & _ & _ & Hp' & Hok & _ & _ & Hrow & -> & _).
    assert (p' = p) as -> by congruence. subst pid.
    rewrite (quantity_of_recorded _ _ _ _ _ _ row) by done.
    eexists; split; [done|].
    unfold newQuantity. unfold insufficient in Hok.
    destruct (FormData.type (formData st)); [destruct Hdom; [done|lia]|].
    destruct (decide (Product.quantity p < FormData.quantity (formData st)));
      [by destruct Hok | lia].
Qed.

Lemma outbound_over_stock_rejected_witness :
  (let st := Sample.page Sample.db (FormData.mk "p2" saida 5 "") in
   handleSubmit Sample.env st Sample.db
   = ([toast_error "Quantidade insuficiente em estoque"], st, Sample.db)) ∧
  (let st := Sample.page Sample.db (FormData.mk "p2" saida 2 "") in
   ∃ q, Db.quantity_of "p2" (db_after (handleSubmit Sample.env st Sample.db))
        = Some q ∧ 0 ≤ q).
Proof.
  split; intros st.
  - apply (outbound_over_stock_rejected Sample.env st Sample.db
             (User.mk "u1") (Profile.mk "Ana") (Product.mk "p2" "Mouse" 3));
      try (vm_compute; reflexivity).
    apply find_product_first. vm_compute. reflexivity.
  - apply (outbound_over_stock_rejected Sample.env st Sample.db
             (User.mk "u1") (Profile.mk "Ana") (Product.mk "p2" "Mouse" 3));
      try (vm_compute; reflexivity).
    + apply find_product_first. vm_compute. reflexivity.
    + by left.
Defined.

(** C1, as stated, fails: when the insertion of the movement reports an
    error, the balance update made before it stays (10 has become 6) and
    no movement is logged. *)
Lemma insert_error_keeps_balance_update :
  let env := Env.mk false true false "m1" "2024-05-01T10:00:00Z" in
  let st := Sample.page Sample.db (FormData.mk "p1" saida 4 "") in
  let o := handleSubmit env st Sample.db in
  toasts o = [toast_error "Erro ao registrar movimentação"] ∧
  Db.quantity_of "p1" Sample.db = Some 10 ∧
  Db.quantity_of "p1" (db_after o) = Some 6 ∧
  Db.movements (db_after o) = [] ∧
  ¬ atomic_at env st Sample.db.
Proof.
  intros env st o. repeat split; try (vm_compute; reflexivity).
  intros H.
  assert (Db.quantity_of "p1" (db_after o) = Db.quantity_of "p1" Sample.db)
    as E.
  { subst o. rewrite H; [done|]. vm_compute. discriminate. }
  vm_compute in E. discriminate.
Qed.

(** C1, amended. A failed submission leaves the page and the movement log
    as they were and touches no other product. The store is unchanged
    when a check fails before the writes (no user or no profile, no
    product of the list with the id of the form, an outbound quantity
    above the listed one), when the balance update reports an error, and
    when the store has no product with that id. In the one remaining
    case, a balance update accepted on a stored product followed by a
    refused insertion of the movement, the product keeps the quantity
    just written, the listed quantity plus or minus the requested one:
    nothing is rolled back. *)
Theorem failed_submission_effect env st db :
  ¬ succeeded (handleSubmit env st db) →
  let fd := formData st in
  let pid := FormData.product_id fd in
  let db' := db_after (handleSubmit env st db) in
  state_after (handleSubmit env st db) = st ∧
  Db.movements db' = Db.movements db ∧
  (∀ other, other ≠ pid → Db.products db' !! other = Db.products db !! other) ∧
  (user st = None ∨ profile st = None → db' = db) ∧
  ((∀ x, x ∈ products st → Product.id x ≠ pid) → db' = db) ∧
  (∀ p, MovementsPage.first_with_id pid (products st) p →
        FormData.type fd = saida →
        Product.quantity p < FormData.quantity fd → db' = db) ∧
  (Env.update_error env = true → db' = db) ∧
  (Db.products db !! pid = None → db' = db) ∧
  (∀ u pr p row,
     user st = Some u → profile st = Some pr →
     MovementsPage.first_with_id pid (products st) p →
     ¬ (FormData.type fd = saida
        ∧ Product.quantity p < FormData.quantity fd) →
     Env.update_error env = false →
     Db.products db !! pid = Some row →
     let q := match FormData.type fd with
              | entrada => Product.quantity p + FormData.quantity fd
              | saida => Product.quantity p - FormData.quantity fd
              end in
     Env.insert_error env = true ∧
     Db.products db' !! pid = Some (ProductRow.set_quantity q row) ∧
     Db.quantity_of pid db' = Some q).
Proof.
  intros Hs fd pid db'. subst fd pid db'.
  setoid_rewrite <- find_product_first.
  rewrite <- find_product_absent.
  pose proof (handleSubmit_path env st db) as H.
  destruct H as [ Hn | u pr Hu Hpr Hp | u pr p Hu Hpr Hp Hins
                | u pr p Hu Hpr Hp Hok Hue
                | u pr p Hu Hpr Hp Hok Hue Hie | ];
    [| | | | | exfalso; apply Hs; reflexivity ];
    unfold db_after, state_after; simpl.
  - repeat split; try done; exfalso; destruct Hn; congruence.
  - repeat split; try done; congruence.
  - repeat split; try done; exfalso;
      match goal with
      | Hp' : find_product _ _ = Some ?p', Hok : ¬ _ |- _ =>
          assert (p' = p) as -> by congruence; by apply Hok
      end.
  - repeat split; try done; congruence.
  - split; [done|]. split; [done|]. split.
    { intros other Hne. by rewrite lookup_alter_ne. }
    split; [intros [?|?]; congruence|].
    split; [intros; congruence|]. split.
    { intros p' Hp' Ht Hlt. exfalso. apply Hok.
      assert (p' = p) as -> by congruence. done. }
    split; [intros; congruence|]. split.
    { apply db_updated_missing. }
    intros u' pr' p' row _ _ Hp' _ _ Hrow.
    assert (p' = p) as -> by congruence.
    split; [destruct Hie; congruence|].
    unfold Db.quantity_of. simpl.
    rewrite lookup_alter_eq, Hrow. done.
Qed.

Lemma failed_submission_effect_witness :
  let st := Sample.page Sample.db (FormData.mk "p1" saida 4 "") in
  let refused :=
    handleSubmit (Env.mk false true false "m1" "2024-05-01T10:00:00Z")
      st Sample.db in
  let down :=
    handleSubmit (Env.mk true false false "m1" "2024-05-01T10:00:00Z")
      st Sample.db in
  (Db.quantity_of "p1" (db_after refused) = Some 6
   ∧ Db.movements (db_after refused) = []) ∧
  db_after down = Sample.db.
Proof.
  intros st refused down. split.
  - destruct (failed_submission_effect
                (Env.mk false true false "m1" "2024-05-01T10:00:00Z")
                st Sample.db)
      as (_ & Hlog & _ & _ & _ & _ & _ & _ & Hkept).
    { vm_compute. discriminate. }
    split; [|exact Hlog].
    refine (proj2 (proj2 (Hkept (User.mk "u1") (Profile.mk "Ana")
                            (Product.mk "p1" "Notebook" 10)
                            (ProductRow.mk "Notebook" "Informatica" 10 5)
                            eq_refl eq_refl _ _ eq_refl eq_refl))).
    + apply find_product_first. vm_compute. reflexivity.
    + vm_compute. intros [_ H]. discriminate.
  - destruct (failed_submission_effect
                (Env.mk true false false "m1" "2024-05-01T10:00:00Z")
                st Sample.db)
      as (_ & _ & _ & _ & _ & _ & Hdown & _).
    { vm_compute. discriminate. }
    apply Hdown. reflexivity.
Defined.



(** C9, as stated, fails: the handler has one catch for both writes, and
    it shows the same generic message, and nothing else, for a product
    that is no longer in the store (deleted after the page listed it),
    for a balance update that reports an error and for an insertion that
    reports one. From what the handler gives back, the three cannot be
    told apart. *)
Lemma catch_merges_write_failures :
  let st := Sample.page Sample.db (FormData.mk "p1" saida 2 "") in
  let gone := handleSubmit Sample.env st Fixture.without_p1 in
  let down :=
    handleSubmit (Env.mk true false false "m1" "2024-05-01T10:00:00Z")
      st Sample.db in
  let refused :=
    handleSubmit (Env.mk false true false "m1" "2024-05-01T10:00:00Z")
      st Sample.db in
  Store.delete_product false "p1" Sample.db = Db.Ok Fixture.without_p1 ∧
  Db.products Fixture.without_p1 !! "p1" = None ∧
  is_Some (Db.products Sample.db !! "p1") ∧
  toasts gone = [toast_error "Erro ao registrar movimentação"] ∧
  toasts down = toasts gone ∧
  toasts refused = toasts gone ∧
  state_after gone = st ∧ state_after down = st ∧ state_after refused = st.
Proof.
  intros st gone down refused.
  repeat split; try (vm_compute; reflexivity).
  vm_compute. by eexists.
Qed.

(** C9, amended. A failed submission shows exactly one error message and
    gives nothing else back. The three checks before the writes have a
    message each: no user or no profile, no product of the list of the
    page with the id of the form, an outbound quantity above the listed
    one. Every failure of the writes has the same fourth message: an
    error of the balance update, an error of the insertion of the
    movement, and a product the store does not have are merged by the one
    catch. A submission succeeds exactly when none of these holds, and one
    that does not succeed shows one of the four messages. *)
Theorem failures_and_their_messages env st db :
  let fd := formData st in
  let pid := FormData.product_id fd in
  let shown := toasts (handleSubmit env st db) in
  let signed_in := (∃ u, user st = Some u) ∧ (∃ pr, profile st = Some pr) in
  let over p :=
    FormData.type fd = saida ∧ Product.quantity p < FormData.quantity fd in
  (shown = [toast_error "Usuário não autenticado"]
   ↔ user st = None ∨ profile st = None) ∧
  (shown = [toast_error "Produto não encontrado"]
   ↔ signed_in ∧ ∀ x, x ∈ products st → Product.id x ≠ pid) ∧
  (shown = [toast_error "Quantidade insuficiente em estoque"]
   ↔ signed_in
     ∧ ∃ p, MovementsPage.first_with_id pid (products st) p ∧ over p) ∧
  (shown = [toast_error "Erro ao registrar movimentação"]
   ↔ signed_in
     ∧ ∃ p, MovementsPage.first_with_id pid (products st) p ∧ ¬ over p
            ∧ (Env.update_error env = true
               ∨ Env.insert_error env = true
               ∨ Db.products db !! pid = None)) ∧
  (succeeded (handleSubmit env st db)
   ↔ signed_in
     ∧ ∃ p, MovementsPage.first_with_id pid (products st) p ∧ ¬ over p
            ∧ Env.update_error env = false
            ∧ Env.insert_error env = false
            ∧ ∃ row, Db.products db !! pid = Some row) ∧
  (¬ succeeded (handleSubmit env st db) →
   shown = [toast_error "Usuário não autenticado"]
   ∨ shown = [toast_error "Produto não encontrado"]
   ∨ shown = [toast_error "Quantidade insuficiente em estoque"]
   ∨ shown = [toast_error "Erro ao registrar movimentação"]).
Proof.
  intros fd pid shown signed_in over.
  subst fd pid shown signed_in over. cbv beta.
  setoid_rewrite <- find_product_first.
  rewrite <- find_product_absent.
  pose proof (handleSubmit_path env st db) as H.
  destruct H as [ Hn | u pr Hu Hpr Hp | u pr p Hu Hpr Hp [Ht Hlt]
                | u pr p Hu Hpr Hp Hok Hue
                | u pr p Hu Hpr Hp Hok Hue Hie
                | u pr p row Hu Hpr Hp Hok Hue Hie Hrow ];
    unfold succeeded, toasts; simpl.
  all: unfold insufficient, success_toast in *.
  all: repeat match goal with |- _ ∧ _ => split end.
  all: try (intros Hs; first [ by exfalso; apply Hs | auto 6 ]; fail).
  all: (split; [first [ by intros [=] | intros _;
                   solve [ repeat match goal with
                             | |- _ ∧ _ => split
                             | |- ∃ _, _ => eexists
                             end; eauto ] ]|]).
  all: try reflexivity.
  all: intros Hc;
    repeat match goal with
      | H : _ ∧ _ |- _ => destruct H
      | H : _ ∨ _ |- _ => destruct H
      | H : ∃ _, _ |- _ => destruct H
      | H1 : ?o = Some ?x, H2 : ?o = Some ?y |- _ =>
          assert (y = x) as -> by congruence; clear H2
      end;
    first [ done | congruence | exfalso; tauto ].
Qed.

Lemma failures_and_their_messages_witness :
  let st := Sample.page Sample.db (FormData.mk "p9" saida 1 "") in
  toasts (handleSubmit Sample.env st Sample.db)
  = [toast_error "Produto não encontrado"].
Proof.
  intros st.
  destruct (failures_and_their_messages Sample.env st Sample.db)
    as (_ & H & _).
  apply H. split; [split; eexists; reflexivity|].
  intros x Hx.
  repeat (apply elem_of_cons in Hx as [->|Hx]; [vm_compute; discriminate|]).
  by apply elem_of_nil in Hx.
Defined.

End claims_single_call.

(** ** The product list and the store *)

Section product_list.
Import Movements.
Implicit Types (l : list Product.t) (pid : string) (db : Db.t).

Lemma find_product_Some l pid p :
  NoDup (Product.id <$> l) → p ∈ l → Product.id p = pid →
  find_product pid l = Some p.
Proof.
  unfold find_product. induction l as [|x l IH]; simpl.
  - intros _ Hin. by apply elem_of_nil in Hin.
  - intros Hnd Hin Hid. apply NoDup_cons in Hnd as [Hx Hnd].
    case_bool_decide as Hxid.
    + apply elem_of_cons in Hin as [->|Hin]; [done|].
      exfalso. apply Hx. rewrite Hxid, <- Hid.
      by apply list_elem_of_fmap_2.
    + apply elem_of_cons in Hin as [->|Hin]; [done|]. by apply IH.
Qed.

Lemma find_product_None l pid :
  (∀ p, p ∈ l → Product.id p ≠ pid) → find_product pid l = None.
Proof.
  unfold find_product. induction l as [|x l IH]; simpl; [done|].
  intros H. rewrite bool_decide_eq_false_2 by (apply H; left).
  apply IH. intros p Hp. apply H. by right.
Qed.

(** Looking a product up in a freshly loaded list gives its stored row. *)
Lemma find_product_select pid db :
  find_product pid (Db.select_products db)
  = (λ r, Product.mk pid (ProductRow.name r) (ProductRow.quantity r))
      <$> Db.products db !! pid.
Proof.
  unfold Db.select_products.
  set (f := λ kv : string * ProductRow.t,
              Product.mk kv.1 (ProductRow.name kv.2)
                         (ProductRow.quantity kv.2)).
  set (rows := map_to_list (Db.products db)).
  assert (merge_sort Db.by_name (f <$> rows) ≡ₚ f <$> rows) as Hperm
    by apply merge_sort_Permutation.
  destruct (Db.products db !! pid) as [row|] eqn:Hrow; simpl.
  - apply find_product_Some; [| |done].
    + rewrite Hperm, <- list_fmap_compose.
      apply (NoDup_fst_map_to_list (Db.products db)).
    + rewrite Hperm. apply list_elem_of_fmap. exists (pid, row).
      split; [done|]. by apply elem_of_map_to_list.
  - apply find_product_None. intros p Hp Hid.
    rewrite Hperm in Hp. apply list_elem_of_fmap in Hp as ([k r] & -> & Hkr).
    apply elem_of_map_to_list in Hkr. simpl in Hid. congruence.
Qed.

(** After a reload that worked, the list shows the store. *)
Lemma in_sync_reloaded pid st db :
  in_sync pid (setProducts (Db.select_products db) st) db.
Proof.
  unfold in_sync, Db.quantity_of. simpl. rewrite find_product_select.
  by destruct (Db.products db !! pid).
Qed.

Lemma authenticated_inv st :
  authenticated st → ∃ u pr, user st = Some u ∧ profile st = Some pr.
Proof. intros [[u Hu] [pr Hpr]]. eauto. Qed.

Lemma final_db_cons db (o : Outcome) os :
  final_db db (o :: os) = final_db (db_after o) os.
Proof.
  unfold final_db. destruct os as [|o' os]; [done|].
  rewrite last_cons_cons.
  destruct (proj2 (last_is_Some (o' :: os))) as [x ->]; done.
Qed.

End product_list.

(** ** Interleaved writes *)

Section interleaved.
Import Movements.
Implicit Types (st : State) (db : Db.t) (sched : list Write).

(** The store after [handleSubmit] is the store after its writes. *)
Lemma handleSubmit_writes env st db :
  db_after (handleSubmit env st db) = run_writes (writes_of env st) db.
Proof.
  unfold handleSubmit, writes_of, requests_of, run_writes.
  destruct (user st) as [u|]; [|done].
  destruct (profile st) as [pr|]; [|done].
  destruct (find_product _ _) as [p|]; [|done].
  destruct (bool_decide _ && _); [done|].
  unfold Db.update_quantity.
  destruct (Env.update_error env) eqn:Hue; simpl; rewrite ?Hue; [done|].
  simpl. destruct (Db.insert_movement _ _ _ _ _ _) as [db2|]; [|done].
  simpl. by destruct (fetchProducts _ _ _).
Qed.

Lemma interleaving_perm {A} (ls : list (list A)) (sched : list A) :
  interleaving ls sched → sched ≡ₚ concat ls.
Proof.
  induction 1 as [ls Hls|ls1 x l ls2 sched _ IH].
  - induction Hls as [|l ls -> _ IH]; [done|]. simpl. by rewrite <- IH.
  - rewrite concat_app in *. simpl in *. rewrite IH.
    by rewrite Permutation_middle.
Qed.

Variables (pid : string) (v : Z).

Lemma run_accepted sched : ∀ db,
  Forall (accepted_on pid v) sched →
  is_Some (Db.products db !! pid) →
  is_Some (Db.products (run_writes sched db) !! pid) ∧
  length (Db.movements (run_writes sched db))
  = (length (Db.movements db) + length (filter is_insert sched))%nat ∧
  (Db.quantity_of pid (run_writes sched db) = Some v
   ∨ Forall is_insert sched
     ∧ Db.quantity_of pid (run_writes sched db) = Db.quantity_of pid db).
Proof.
  induction sched as [|w sched IH]; intros db Hacc [row Hrow].
  { simpl. split; [by eexists|]. split; [lia|]. right. by split. }
  apply Forall_cons in Hacc as [Hw Hacc].
  unfold run_writes in *. cbn [foldl].
  destruct w as [env r|env r]; simpl in Hw.
  - destruct Hw as (Hue & Hpid & Hv). simpl. rewrite Hue, Hpid, Hv. simpl.
    set (db1 := Db.mk _ _).
    destruct (IH db1 Hacc) as (Hsome & Hlen & Hq).
    { subst db1. simpl. rewrite lookup_alter_eq, Hrow. by eexists. }
    split; [done|]. split.
    { rewrite Hlen. rewrite filter_cons_False by (by intros []). done. }
    left. destruct Hq as [Hq|[_ Hq]]; [done|]. rewrite Hq.
    subst db1. by apply (quantity_of_alter _ _ _ _ row).
  - destruct Hw as (Hie & Hpid & Huid). simpl.
    rewrite Hie, (insert_movement_ok _ _ _ _ _ row);
      [|done|by rewrite Hpid].
    simpl. set (db1 := Db.mk _ _).
    destruct (IH db1 Hacc) as (Hsome & Hlen & Hq).
    { subst db1. simpl. by eexists. }
    split; [done|]. split.
    { rewrite Hlen. subst db1. simpl. rewrite length_app. simpl. lia. }
    destruct Hq as [Hq|[Hall Hq]]; [by left|]. right.
    split; [by constructor|]. by rewrite Hq.
Qed.

End interleaved.

Section interleaved_pages.
Import Movements.
Implicit Types (st : State) (db : Db.t) (sched : list Write) (pid : string).

(** The writes of a page that shows [pid] with [N] units and submits an
    outbound movement of 1. *)
Lemma writes_of_same_snapshot db pid (c : Env.t * State) (N : Z) :
  same_snapshot db pid c → Db.quantity_of pid db = Some N → 1 ≤ N →
  ∃ r, writes_of c.1 c.2 = [update_of c.1 r; insert_of c.1 r] ∧
       accepted_on pid (N - 1) (update_of c.1 r) ∧
       accepted_on pid (N - 1) (insert_of c.1 r).
Proof.
  intros (Hauth & Hlist & Hue & Hie & Hpid & Ht & Hq) HN Hle.
  apply authenticated_inv in Hauth as (u & pr & Hu & Hpr).
  unfold Db.quantity_of in HN.
  destruct (Db.products db !! pid) as [row|] eqn:Hrow; [|done].
  injection HN as HN.
  unfold writes_of, requests_of.
  rewrite Hu, Hpr, Hlist, Hpid, find_product_select, Hrow. simpl.
  rewrite Ht, Hq, HN.
  rewrite bool_decide_eq_true_2 by done. simpl.
  destruct (N <? 1) eqn:Hlt; [apply Z.ltb_lt in Hlt; lia|].
  rewrite Hue. eexists. split; [done|].
  unfold newQuantity. simpl. rewrite Ht, Hq. done.
Qed.

(** Whatever the order in which the writes of such pages reach the store,
    every page has written the same quantity and logged its movement. *)
Lemma interleaved_same_snapshot calls db pid sched (N : Z) :
  calls ≠ [] → 1 ≤ N →
  Forall (same_snapshot db pid) calls →
  Db.quantity_of pid db = Some N →
  interleaving ((λ c : Env.t * State, writes_of c.1 c.2) <$> calls) sched →
  Db.quantity_of pid (run_writes sched db) = Some (N - 1) ∧
  length (Db.movements (run_writes sched db))
  = (length (Db.movements db) + length calls)%nat.
Proof.
  intros Hne Hle Hcalls HN Hsched.
  apply interleaving_perm in Hsched.
  set (ws := concat ((λ c : Env.t * State, writes_of c.1 c.2) <$> calls))
    in Hsched.
  assert (Forall (accepted_on pid (N - 1)) ws ∧
          length (filter is_insert ws) = length calls ∧
          (calls ≠ [] → ∃ env r, update_of env r ∈ ws))
    as (Hacc & Hcount & Hupd).
  { subst ws. clear Hne Hsched.
    induction Hcalls as [|c calls Hc _ IH]; [done|].
    destruct IH as (Hacc & Hcount & _).
    destruct (writes_of_same_snapshot db pid c N) as (r & Hw & Hu & Hi);
      [done..|].
    rewrite fmap_cons. cbn [concat]. rewrite Hw.
    simpl. split; [repeat (constructor; [done|]); done|]. split.
    - simpl. by rewrite Hcount.
    - intros _. exists c.1, r. left. }
  destruct (Hupd Hne) as (env & r & Hin).
  assert (is_Some (Db.products db !! pid)) as Hsome.
  { unfold Db.quantity_of in HN. by destruct (Db.products db !! pid). }
  destruct (run_accepted pid (N - 1) sched db) as (_ & Hlen & Hq);
    [by rewrite Hsched|done|].
  split.
  - destruct Hq as [Hq|[Hall _]]; [done|]. exfalso.
    rewrite <- Hsched in Hin. rewrite Forall_forall in Hall.
    by apply (Hall _ Hin).
  - by rewrite Hlen, Hsched, Hcount.
Qed.

(** Handlers run one after the other are one of these orders. *)
Lemma pages_run_writes calls : ∀ db,
  final_db db (pages calls db)
  = run_writes
      (concat ((λ c : Env.t * State, writes_of c.1 c.2) <$> calls)) db.
Proof.
  induction calls as [|c calls IH]; intros db; [done|].
  cbn [pages]. rewrite final_db_cons, IH, handleSubmit_writes.
  rewrite fmap_cons. cbn [concat]. unfold run_writes. by rewrite foldl_app.
Qed.

End interleaved_pages.

(** ** Sequences of submissions *)

Section sequences.
Import Movements.
Implicit Types (st : State) (db : Db.t) (pid : string).

Lemma total_cons t (c : Env.t * FormData.t) calls :
  total t (c :: calls)
  = (if bool_decide (FormData.type c.2 = t) then FormData.quantity c.2 else 0)
    + total t calls.
Proof. unfold total. simpl. case_bool_decide; lia. Qed.

(** In one page whose list is reloaded after each success, successive
    successful submissions on a product add up. *)
Lemma session_sum calls : ∀ st db pid B0,
  Forall (on_product_reloading pid) calls →
  in_sync pid st db → Db.quantity_of pid db = Some B0 →
  Forall succeeded (session calls st db) →
  Db.quantity_of pid (final_db db (session calls st db))
  = Some (B0 + total entrada calls - total saida calls).
Proof.
  induction calls as [|c calls IH]; intros st db pid B0 Hcalls Hsync HB Hall.
  { unfold final_db, total. simpl. rewrite HB. f_equal. lia. }
  apply Forall_cons in Hcalls as [[Hpid Hfetch] Hcalls].
  cbn [session] in Hall. apply Forall_cons in Hall as [Hs Hall].
  cbn [session]. rewrite final_db_cons.
  unfold submit in *. set (st1 := setFormData c.2 st) in *.
  destruct (succeeded_inv _ _ _ Hs)
    as (u & pr & p & row & Hu & Hpr & Hp & Hok & Hue & Hie & Hrow & Hdb & Hst).
  assert (formData st1 = c.2) as Hfd by done. rewrite Hfd in *.
  rewrite Hpid in *.
  assert (Product.quantity p = B0) as HpB.
  { unfold in_sync in Hsync. change (products st) with (products st1) in Hsync.
    rewrite Hp, HB in Hsync. simpl in Hsync. congruence. }
  rewrite (IH _ _ pid (newQuantity c.2 p)); [| done | | | done ].
  - f_equal. rewrite !total_cons. unfold newQuantity.
    destruct (FormData.type c.2); simpl; lia.
  - rewrite Hst, Hdb. unfold fetchProducts. rewrite Hfetch. simpl.
    apply in_sync_reloaded.
  - rewrite Hdb, <- Hpid.
    rewrite (quantity_of_recorded _ _ _ _ _ _ row); [done|].
    by rewrite Hpid.
Qed.

(** C4, as stated, fails: on a product of quantity 10, an outbound
    movement of 5 succeeds but the reload of the product list after it
    fails; the next outbound movement of 8 is checked against the 10 still
    shown, succeeds and stores 10 - 8 = 2, where the sum of the movements
    is 10 - 5 - 8 = -3. *)
Lemma stale_list_breaks_ledger_sum :
  let calls :=
    [(Env.mk false false true "m1" "2024-05-01T10:00:00Z",
      FormData.mk "p1" saida 5 "");
     (Env.mk false false false "m2" "2024-05-01T10:05:00Z",
      FormData.mk "p1" saida 8 "")] in
  let st := Sample.page Sample.db (FormData.mk "" entrada 1 "") in
  let os := session calls st Sample.db in
  Forall succeeded os ∧
  Db.quantity_of "p1" Sample.db = Some 10 ∧
  Db.quantity_of "p1" (final_db Sample.db os) = Some 2 ∧
  10 + total entrada calls - total saida calls = -3 ∧
  ¬ ledger_sum_at calls st Sample.db "p1" 10.
Proof.
  intros calls st os.
  assert (Forall succeeded os) as Hall.
  { repeat constructor. }
  split; [done|]. repeat split; try (vm_compute; reflexivity).
  intros H. unfold ledger_sum_at in H.
  assert (Db.quantity_of "p1" (final_db Sample.db os) = Some (-3)) as E.
  { apply H; [repeat constructor | vm_compute; reflexivity
              | vm_compute; reflexivity | done]. }
  vm_compute in E. discriminate.
Qed.

(** C4, amended. For every sequence of successful submissions on one
    product made from a page whose product list shows the stored quantity
    B0 at the start and is reloaded without error after each submission,
    the final stored quantity is B0 plus the inbound quantities minus the
    outbound quantities. *)
Theorem ledger_sum_when_reloaded calls st db pid B0 :
  Forall (on_product_reloading pid) calls →
  in_sync pid st db → Db.quantity_of pid db = Some B0 →
  Forall succeeded (session calls st db) →
  Db.quantity_of pid (final_db db (session calls st db))
  = Some (B0 + total entrada calls - total saida calls).
Proof. apply session_sum. Qed.

Lemma ledger_sum_when_reloaded_witness :
  let calls :=
    [(Env.mk false false false "m1" "2024-05-01T10:00:00Z",
      FormData.mk "p1" saida 5 "");
     (Env.mk false false false "m2" "2024-05-01T10:05:00Z",
      FormData.mk "p1" entrada 8 "")] in
  let st := Sample.page Sample.db (FormData.mk "" entrada 1 "") in
  Db.quantity_of "p1" (final_db Sample.db (session calls st Sample.db))
  = Some (10 + 8 - 5).
Proof.
  intros calls st.
  apply (ledger_sum_when_reloaded calls st Sample.db "p1" 10).
  - repeat constructor.
  - vm_compute. reflexivity.
  - vm_compute. reflexivity.
  - repeat constructor.
Defined.

(** Submissions of an outbound movement of 1 from pages that all show the
    same product [p], whatever the store has become meanwhile: each one
    passes the stock check against [p] and writes the quantity of [p]
    minus 1. *)
Lemma pages_same_list (p : Product.t) pid calls : ∀ db,
  Forall (λ c : Env.t * State,
            authenticated c.2 ∧ find_product pid (products c.2) = Some p ∧
            outbound_one pid c.1 (formData c.2)) calls →
  1 ≤ Product.quantity p →
  is_Some (Db.products db !! pid) →
  Forall succeeded (pages calls db) ∧
  length (Db.movements (final_db db (pages calls db)))
  = (length (Db.movements db) + length calls)%nat ∧
  (calls ≠ [] →
   Db.quantity_of pid (final_db db (pages calls db))
   = Some (Product.quantity p - 1)).
Proof.
  induction calls as [|[env st] calls IH]; intros db Hcalls Hp [row Hrow].
  { unfold final_db. simpl. split; [constructor|]. split; [lia|done]. }
  apply Forall_cons in Hcalls as [(Hauth & Hfind & Hue & Hie & Hpid & Ht & Hq)
                                    Hcalls].
  simpl in Hauth, Hfind, Hue, Hie, Hpid, Ht, Hq.
  apply authenticated_inv in Hauth as (u & pr & Hu & Hpr).
  assert (¬ insufficient (formData st) p) as Hok.
  { intros [_ Hlt]. lia. }
  rewrite <- Hpid in Hfind, Hrow.
  destruct (handleSubmit_success env st db u pr p row) as [Hs Hdb]; try done.
  cbn [pages]. rewrite final_db_cons. simpl. rewrite Hdb.
  destruct (IH (db_recorded env (formData st) u pr p db))
    as (Hall & Hlen & Hfin); [done | done | |].
  { rewrite <- Hpid. unfold db_recorded, db_updated. simpl.
    rewrite lookup_alter_eq, Hrow. by eexists. }
  split; [by constructor|]. split.
  { rewrite Hlen. unfold db_recorded. simpl. rewrite length_app. simpl. lia. }
  intros _. destruct calls as [|c calls].
  - unfold final_db. simpl. rewrite <- Hpid.
    rewrite (quantity_of_recorded _ _ _ _ _ _ row) by done.
    unfold newQuantity. rewrite Ht, Hq. done.
  - by apply Hfin.
Qed.

(** A page of a signed-in user stays one through its submissions. *)
Lemma authenticated_after env st db :
  authenticated st → authenticated (state_after (handleSubmit env st db)).
Proof.
  intros Hauth. pose proof (handleSubmit_path env st db) as H.
  destruct H; try done.
  unfold authenticated, state_after, fetchProducts in *. simpl.
  by destruct (Env.fetch_error env).
Qed.

(** In one page whose list is reloaded after each success, outbound
    movements of 1 succeed as long as units are left. *)
Lemma session_outbound_ones pid calls : ∀ st db B0,
  Forall (λ c, on_product_reloading pid c ∧ outbound_one pid c.1 c.2)
         calls →
  authenticated st → in_sync pid st db →
  Db.quantity_of pid db = Some B0 →
  Z.of_nat (length calls) ≤ B0 →
  Forall succeeded (session calls st db) ∧
  total entrada calls = 0 ∧ total saida calls = Z.of_nat (length calls).
Proof.
  induction calls as [|c calls IH]; intros st db B0 Hcalls Hauth Hsync HB Hlen.
  { split; [constructor|done]. }
  apply Forall_cons in Hcalls as [[[_ Hfetch] (Hue & Hie & Hpid & Ht & Hq)]
                                    Hcalls].
  cbn [session]. unfold submit. set (st1 := setFormData c.2 st).
  assert (formData st1 = c.2) as Hfd by done.
  apply authenticated_inv in Hauth as Hauth'.
  destruct Hauth' as (u & pr & Hu & Hpr).
  assert (∃ p row, find_product pid (products st1) = Some p ∧
                   Db.products db !! pid = Some row ∧
                   Product.quantity p = B0) as (p & row & Hp & Hrow & HpB).
  { unfold in_sync, Db.quantity_of in *.
    change (products st1) with (products st).
    destruct (find_product pid (products st)) as [p|];
      destruct (Db.products db !! pid) as [row|]; simplify_eq/=.
    eauto. }
  assert (¬ insufficient (formData st1) p) as Hok.
  { rewrite Hfd. intros [_ Hlt]. simpl in Hlen. lia. }
  destruct (handleSubmit_success c.1 st1 db u pr p row) as [Hs Hdb];
    try done; try (rewrite Hfd; congruence).
  destruct (succeeded_inv _ _ _ Hs)
    as (u' & pr' & p' & _ & Hu' & Hpr' & Hp' & _ & _ & _ & _ & _ & Hst).
  rewrite Hfd, Hpid in Hp'.
  change (user st1) with (user st) in Hu'.
  change (profile st1) with (profile st) in Hpr'.
  assert (u' = u) as -> by congruence.
  assert (pr' = pr) as -> by congruence.
  assert (p' = p) as -> by congruence.
  destruct (IH (state_after (handleSubmit c.1 st1 db))
               (db_after (handleSubmit c.1 st1 db)) (B0 - 1))
    as (Hall & Hin & Hout); [done| | | | |].
  - by apply (authenticated_after c.1 st1 db).
  - rewrite Hst, Hdb. unfold fetchProducts. rewrite Hfetch. simpl.
    apply in_sync_reloaded.
  - rewrite Hdb, Hfd, <- Hpid.
    rewrite (quantity_of_recorded _ _ _ _ _ _ row) by (by rewrite Hpid).
    unfold newQuantity. rewrite Ht, Hq, HpB. done.
  - simpl in Hlen. lia.
  - split; [by constructor|]. rewrite !total_cons, Ht, Hin, Hout.
    simpl. lia.
Qed.

(** C3, as stated, fails: three pages have loaded the product list while
    product p2 had 3 units, and each submits an outbound movement of 1.
    All three succeed and three movements are logged, but each page
    writes 3 - 1, so the final quantity is 2, not 0, with the handlers
    run one after the other and in every other order of their writes. *)
Lemma same_snapshot_loses_updates :
  let page := Sample.page Sample.db (FormData.mk "p2" saida 1 "") in
  let calls :=
    [(Env.mk false false false "m1" "2024-05-01T10:00:00Z", page);
     (Env.mk false false false "m2" "2024-05-01T10:00:00Z", page);
     (Env.mk false false false "m3" "2024-05-01T10:00:01Z", page)] in
  let os := pages calls Sample.db in
  Forall (same_snapshot Sample.db "p2") calls ∧
  Db.quantity_of "p2" Sample.db = Some 3 ∧
  Forall succeeded os ∧
  length (Db.movements (final_db Sample.db os)) = 3%nat ∧
  Db.quantity_of "p2" (final_db Sample.db os) = Some 2 ∧
  (∀ sched,
     interleaving ((λ c : Env.t * State, writes_of c.1 c.2) <$> calls) sched →
     Db.quantity_of "p2" (run_writes sched Sample.db) = Some 2) ∧
  ¬ no_lost_update_at calls Sample.db "p2".
Proof.
  intros page calls os.
  assert (Forall (same_snapshot Sample.db "p2") calls) as Hsnap.
  { repeat constructor; by eexists. }
  split; [done|]. split; [done|]. split; [repeat constructor|].
  split; [done|]. split; [vm_compute; reflexivity|]. split.
  { intros sched Hsched.
    by destruct (interleaved_same_snapshot calls Sample.db "p2" sched 3). }
  intros H. destruct H as (_ & E & _); [done | done |].
  vm_compute in E. discriminate.
Qed.

(** C3, amended. Outbound movements of 1 submitted from pages that all
    loaded the product list when the product had as many units as there
    are submissions: all succeed and each logs one movement, but every
    page writes that quantity minus 1, which is the final quantity, when
    the handlers run one after the other and in every other order in
    which their writes reach the store. The final quantity is 0 when the
    submissions are made from one page whose list is reloaded after each
    of them, so that each sees the quantity the previous one has left. *)
Theorem outbound_from_one_snapshot calls db pid :
  calls ≠ [] →
  Forall (same_snapshot db pid) calls →
  Db.quantity_of pid db = Some (Z.of_nat (length calls)) →
  (Forall succeeded (pages calls db) ∧
   length (Db.movements (final_db db (pages calls db)))
   = (length (Db.movements db) + length calls)%nat ∧
   Db.quantity_of pid (final_db db (pages calls db))
   = Some (Z.of_nat (length calls) - 1)) ∧
  (∀ sched,
     interleaving ((λ c : Env.t * State, writes_of c.1 c.2) <$> calls) sched →
     Db.quantity_of pid (run_writes sched db)
     = Some (Z.of_nat (length calls) - 1) ∧
     length (Db.movements (run_writes sched db))
     = (length (Db.movements db) + length calls)%nat) ∧
  (∀ (seq : list (Env.t * FormData.t)) st,
     length seq = length calls →
     Forall (λ c, on_product_reloading pid c ∧ outbound_one pid c.1 c.2) seq →
     authenticated st → in_sync pid st db →
     Forall succeeded (session seq st db) ∧
     Db.quantity_of pid (final_db db (session seq st db)) = Some 0).
Proof.
  intros Hne Hcalls HN. split; [|split].
  - unfold Db.quantity_of in HN.
    destruct (Db.products db !! pid) as [row|] eqn:Hrow; [|done].
    simpl in HN.
    set (p := Product.mk pid (ProductRow.name row) (ProductRow.quantity row)).
    destruct (pages_same_list p pid calls db) as (Hall & Hlen & Hfin).
    + eapply Forall_impl; [exact Hcalls|].
      intros c (Hauth & Hlist & Hone). split; [done|]. split; [|done].
      rewrite Hlist, find_product_select, Hrow. done.
    + simpl. destruct calls; [done|]. simplify_eq/=. lia.
    + by eexists.
    + split; [done|]. split; [done|]. rewrite Hfin by done.
      injection HN as HN. subst p. simpl. by rewrite HN.
  - intros sched Hsched.
    apply (interleaved_same_snapshot calls db pid sched); try done.
    destruct calls; [done|]. simpl. lia.
  - intros seq st Hlen Hseq Hauth Hsync.
    destruct (session_outbound_ones pid seq st db (Z.of_nat (length calls)))
      as (Hall & Hin & Hout); [done..| lia |].
    split; [done|].
    rewrite (session_sum seq st db pid (Z.of_nat (length calls)));
      [| | done | done | done].
    + f_equal. lia.
    + eapply Forall_impl; [exact Hseq|]. by intros c [? _].
Qed.

Lemma outbound_from_one_snapshot_witness :
  let page := Sample.page Sample.db (FormData.mk "p2" saida 1 "") in
  let calls :=
    [(Env.mk false false false "m1" "2024-05-01T10:00:00Z", page);
     (Env.mk false false false "m2" "2024-05-01T10:00:00Z", page);
     (Env.mk false false false "m3" "2024-05-01T10:00:01Z", page)] in
  let seq := (λ c : Env.t * State, (c.1, formData c.2)) <$> calls in
  Db.quantity_of "p2" (final_db Sample.db (pages calls Sample.db)) = Some 2 ∧
  Db.quantity_of "p2" (final_db Sample.db (session seq page Sample.db))
  = Some 0.
Proof.
  intros page calls seq.
  destruct (outbound_from_one_snapshot calls Sample.db "p2")
    as ((_ & _ & Hpages) & _ & Hseq).
  - discriminate.
  - repeat constructor; by eexists.
  - vm_compute. reflexivity.
  - split; [exact Hpages|].
    apply (Hseq seq page); [reflexivity | repeat constructor | |].
    + split; by eexists.
    + vm_compute. reflexivity.
Defined.

End sequences.

(** ** The history filter *)

Section history.
Import History.

Lemma append_String c (s t : string) :
  String c s +:+ t = String c (s +:+ t).
Proof. reflexivity. Qed.

Lemma prefix_spec t : ∀ s,
  String.prefix t s = true ↔ ∃ post, s = t +:+ post.
Proof.
  induction t as [|a t IH]; intros s; simpl.
  - destruct s; (split; [intros _; eexists; reflexivity | done]).
  - destruct s as [|b s]; simpl.
    + split; [done | intros [post [=]]].
    + destruct (ascii_dec a b) as [->|Hne].
      * rewrite IH. split; intros [post E]; exists post;
          rewrite append_String in *; congruence.
      * split; [done|]. intros [post E]. rewrite append_String in E.
        congruence.
Qed.

Lemma includes_unfold s t :
  includes s t
  = String.prefix t s
    || match s with
       | EmptyString => false
       | String _ s' => includes s' t
       end.
Proof. by destruct s. Qed.

(** [includes] finds exactly the occurrences of [t] in [s]. *)
Lemma includes_spec t : ∀ s,
  includes s t = true ↔ ∃ pre post, s = pre +:+ t +:+ post.
Proof.
  induction s as [|c s IH];
    rewrite includes_unfold, orb_true_iff, prefix_spec.
  - split.
    + intros [[post E]|[=]]. by exists "", post.
    + intros ([|? pre] & post & E); [|done]. left. by exists post.
  - rewrite IH. split.
    + intros [[post E]|(pre & post & E)].
      * by exists "", post.
      * exists (String c pre), post. by rewrite append_String, E.
    + intros ([|c' pre] & post & E).
      * left. by exists post.
      * right. exists pre, post. rewrite append_String in E. congruence.
Qed.

Lemma StronglySorted_sublist {A} (R : A → A → Prop) (k l : list A) :
  sublist k l → StronglySorted R l → StronglySorted R k.
Proof.
  induction 1 as [|x k l Hsub IH|x k l Hsub IH]; intros Hl.
  - constructor.
  - apply StronglySorted_inv in Hl as [Hl Hx]. constructor; [by apply IH|].
    rewrite Forall_forall in *. intros y Hy. apply Hx.
    by apply (sublist_subseteq _ _ Hsub).
  - apply StronglySorted_inv in Hl as [Hl _]. by apply IH.
Qed.

Lemma List_filter_sublist {A} (f : A → bool) (l : list A) :
  sublist (List.filter f l) l.
Proof.
  induction l as [|x l IH]; simpl; [constructor|].
  destruct (f x); by constructor.
Qed.

Lemma List_filter_filter {A} (f g : A → bool) (l : list A) :
  List.filter g (List.filter f l) = List.filter (λ x, f x && g x) l.
Proof.
  induction l as [|x l IH]; simpl; [done|].
  destruct (f x); simpl; [|done]. destruct (g x); by rewrite IH.
Qed.

Lemma List_filter_true {A} (l : list A) : List.filter (λ _, true) l = l.
Proof. induction l as [|x l IH]; simpl; by rewrite ?IH. Qed.

Variable toLowerCase : string → string.

Lemma filterMovements_filter st :
  filteredMovements (filterMovements toLowerCase st)
  = List.filter (keeps toLowerCase st) (movements st).
Proof.
  unfold filterMovements, keeps. simpl.
  case_bool_decide; case_bool_decide; simpl;
    rewrite ?List_filter_filter, ?List_filter_true; try done;
    apply List.filter_ext; intros m; by rewrite ?andb_true_r.
Qed.

Lemma keeps_selected st m :
  keeps toLowerCase st m = true
  ↔ selected toLowerCase (searchTerm st) (typeFilter st) m.
Proof.
  unfold keeps, selected, search_hit, type_hit, contains_ci.
  rewrite andb_true_iff, !orb_true_iff, !bool_decide_eq_true, !includes_spec.
  split.
  - intros [[Hs|Hs] [Ht|Ht]]; split; intros; done.
  - intros [Hs Ht]. split.
    + destruct (decide (searchTerm st = "")); [by left | right; by apply Hs].
    + destruct (decide (typeFilter st = "all")); [by left | right; by apply Ht].
Qed.

(** C7. The history filter keeps exactly the movements that are selected:
    those whose product name or responsible name contains the search term
    without regard to case, when a term is given, and whose type is the
    chosen one, when one is chosen. The result is the list of the kept
    elements of the fetched list in their order, hence a subsequence of
    it, newest first whenever the fetched list is. The fetched list and
    the filter inputs are left as they were. *)
Theorem history_filter_selects st :
  let st' := filterMovements toLowerCase st in
  filteredMovements st' = List.filter (keeps toLowerCase st) (movements st) ∧
  (∀ m, keeps toLowerCase st m = true
        ↔ selected toLowerCase (searchTerm st) (typeFilter st) m) ∧
  (∀ m, m ∈ filteredMovements st'
        ↔ m ∈ movements st
          ∧ selected toLowerCase (searchTerm st) (typeFilter st) m) ∧
  sublist (filteredMovements st') (movements st) ∧
  (StronglySorted newest_first (movements st) →
   StronglySorted newest_first (filteredMovements st')) ∧
  movements st' = movements st ∧ searchTerm st' = searchTerm st ∧
  typeFilter st' = typeFilter st ∧ loading st' = loading st.
Proof.
  intros st'. subst st'. rewrite filterMovements_filter.
  split; [done|]. split; [apply keeps_selected|]. split.
  { intros m. rewrite !list_elem_of_In, List.filter_In, keeps_selected. done. }
  split; [apply List_filter_sublist|]. split; [|done].
  apply StronglySorted_sublist, List_filter_sublist.
Qed.

End history.

Lemma history_filter_selects_witness :
  let st' := History.filterMovements History.ascii_toLowerCase Sample.history in
  Movement.id <$> History.filteredMovements st' = ["m4"; "m1"] ∧
  StronglySorted History.newest_first (History.filteredMovements st').
Proof.
  intros st'. split; [vm_compute; reflexivity|].
  apply (history_filter_selects History.ascii_toLowerCase Sample.history).
  repeat constructor.
Defined.

(** ** The low-stock selection *)

Section sort_facts.
Context {A : Type} (key : A → Z).
Implicit Types (x : A) (l : list A).

Lemma insert_stable_perm x l :
  Dashboard.insert_stable (λ a b, key a - key b) x l ≡ₚ x :: l.
Proof.
  induction l as [|y l IH]; simpl; [done|].
  destruct (key x - key y <=? 0); [done|].
  rewrite IH. apply Permutation_swap.
Qed.

Lemma sort_perm l : Dashboard.sort (λ a b, key a - key b) l ≡ₚ l.
Proof.
  induction l as [|x l IH]; simpl; [done|].
  by rewrite insert_stable_perm, IH.
Qed.

Lemma insert_stable_sorted x l :
  StronglySorted (λ a b, key a ≤ key b) l →
  StronglySorted (λ a b, key a ≤ key b)
    (Dashboard.insert_stable (λ a b, key a - key b) x l).
Proof.
  induction l as [|y l IH]; simpl; intros Hl.
  { repeat constructor. }
  apply StronglySorted_inv in Hl as [Hl Hy].
  destruct (key x - key y <=? 0) eqn:Hc.
  - apply Z.leb_le in Hc.
    constructor; [by constructor|].
    constructor; [lia|].
    eapply Forall_impl; [exact Hy|]. intros z Hz. simpl in *. lia.
  - apply Z.leb_gt in Hc.
    constructor; [by apply IH|].
    rewrite insert_stable_perm. constructor; [lia | done].
Qed.

Lemma sort_sorted l :
  StronglySorted (λ a b, key a ≤ key b)
    (Dashboard.sort (λ a b, key a - key b) l).
Proof.
  induction l as [|x l IH]; simpl; [constructor|].
  by apply insert_stable_sorted.
Qed.

End sort_facts.

Section dashboard.
Import Dashboard.

(** C8. The low-stock selection returns products of the fetched list whose
    quantity is at most their minimum stock, in ascending order of
    quantity, at most five of them: the first five of all such products
    sorted by quantity, so that every low-stock product left out has a
    quantity at least that of each one returned. It reads the quantity
    column only: two stores with the same products table give the same
    selection whatever their movement logs. *)
Theorem low_stock_selection allProducts :
  let all := default [] allProducts in
  let result := lowStock allProducts in
  (∀ p, is_low p = true
        ↔ DashboardProduct.quantity p ≤ DashboardProduct.min_stock p) ∧
  (∀ p, p ∈ result → p ∈ all ∧ is_low p = true) ∧
  StronglySorted ascending_quantity result ∧
  length result = (5 `min` length (List.filter is_low all))%nat ∧
  (∃ rest, result ++ rest ≡ₚ List.filter is_low all ∧
           ∀ p r, p ∈ result → r ∈ rest → ascending_quantity p r) ∧
  (∀ failing db db', Db.products db = Db.products db' →
                     lowStockProducts failing db = lowStockProducts failing db').
Proof.
  intros all result.
  set (low := List.filter is_low all).
  set (sorted := sort by_quantity low).
  assert (result = take 5 sorted) as Hres by done.
  assert (sorted ≡ₚ low) as Hperm by apply (sort_perm DashboardProduct.quantity).
  assert (StronglySorted ascending_quantity sorted) as Hsorted
    by apply (sort_sorted DashboardProduct.quantity).
  split; [intros p; apply Z.leb_le|]. split.
  { intros p Hp. rewrite Hres in Hp.
    apply (sublist_subseteq _ _ (sublist_take sorted 5)) in Hp.
    rewrite Hperm in Hp. apply list_elem_of_In, List.filter_In in Hp as [Hp ?].
    by apply list_elem_of_In in Hp. }
  split.
  { rewrite Hres. eapply StronglySorted_sublist; [apply sublist_take | done]. }
  split.
  { rewrite Hres, length_take. by rewrite Hperm. }
  split.
  { exists (drop 5 sorted). rewrite Hres, take_drop. split; [done|].
    intros p r Hp Hr.
    apply (StronglySorted_app_1_elem_of _ (take 5 sorted) (drop 5 sorted));
      [by rewrite take_drop | done | done]. }
  intros failing db db' E. unfold lowStockProducts, select_all. by rewrite E.
Qed.

Lemma low_stock_selection_witness :
  DashboardProduct.id <$> lowStock (Some Sample.allProducts)
  = ["c"; "h"; "f"; "d"; "b"] ∧
  length (lowStock (Some Sample.allProducts)) = 5%nat.
Proof.
  split; [vm_compute; reflexivity|].
  destruct (low_stock_selection (Some Sample.allProducts))
    as (_ & _ & _ & Hlen & _).
  exact Hlen.
Defined.

End dashboard.

(** ** The scenarios of the description *)

Section scenarios.
Import Movements.

(** Quantity 10, minimum 5: an inbound movement of 5 gives 15 and one
    movement of kind [entrada]. *)
Example scenario_inbound :
  let o := handleSubmit Sample.env
             (Sample.page Sample.db (FormData.mk "p1" entrada 5 ""))
             Sample.db in
  toasts o = [success_toast] ∧
  Db.quantity_of "p1" (db_after o) = Some 15 ∧
  MovementRow.type <$> Db.movements (db_after o) = [entrada].
Proof. vm_compute. done. Qed.

(** Quantity 3: an outbound movement of 5 is refused, the quantity stays
    3 and no movement is created. *)
Example scenario_insufficient :
  let o := handleSubmit Sample.env
             (Sample.page Sample.db (FormData.mk "p2" saida 5 ""))
             Sample.db in
  toasts o = [toast_error "Quantidade insuficiente em estoque"] ∧
  Db.quantity_of "p2" (db_after o) = Some 3 ∧
  Db.movements (db_after o) = [].
Proof. vm_compute. done. Qed.

(** A product above its minimum enters the low-stock selection once a
    movement brings its quantity down to the minimum. *)
Example scenario_low_stock :
  let o := handleSubmit Sample.env
             (Sample.page Sample.db (FormData.mk "p1" saida 5 ""))
             Sample.db in
  DashboardProduct.id <$> Dashboard.lowStockProducts false Sample.db = ["p2"] ∧
  DashboardProduct.id <$> Dashboard.lowStockProducts false (db_after o)
  = ["p2"; "p1"].
Proof. vm_compute. done. Qed.

(** Type filter "saida" and a search term found in responsible names: the
    outbound movements of those persons, newest first. *)
Example scenario_history :
  Movement.id
    <$> History.filteredMovements
          (History.filterMovements History.ascii_toLowerCase Sample.history)
  = ["m4"; "m1"].
Proof. vm_compute. done. Qed.

End scenarios.

(** ** What a submission leaves alone *)

Section submission_frame.
Import Movements.
Implicit Types (env : Env.t) (st : State) (db : Db.t).

Lemma alter_absent {A} (f : A → A) (m : gmap string A) i :
  m !! i = None → alter f i m = m.
Proof.
  intros Hi. apply map_eq. intros j. rewrite lookup_alter.
  case_decide; [subst; by rewrite Hi | done].
Qed.

Lemma db_updated_absent fd (p : Product.t) db :
  Db.products db !! FormData.product_id fd = None →
  db_updated fd p db = db.
Proof.
  intros Hi. unfold db_updated. rewrite alter_absent by done. by destruct db.
Qed.

(** The store after a submission, whatever its outcome: the one before,
    the one after the balance update, or the one after both writes. *)
Lemma db_after_cases env st db :
  db_after (handleSubmit env st db) = db
  ∨ (∃ p, db_after (handleSubmit env st db) = db_updated (formData st) p db)
  ∨ (∃ u pr p, succeeded (handleSubmit env st db) ∧
               is_Some (Db.products db !! FormData.product_id (formData st)) ∧
               db_after (handleSubmit env st db)
               = db_recorded env (formData st) u pr p db).
Proof.
  pose proof (handleSubmit_path env st db) as H.
  destruct H; try (by left).
  - right. left. by exists p.
  - right. right. exists u, pr, p. split; [done|]. split; [by eexists|done].
Qed.

(** X1. Whatever its outcome, a submission removes and alters no logged
    movement and adds at most one; it creates and deletes no product; it
    leaves every other product as it is, and it keeps the name, the
    category and the minimum stock of every product, the one of the form
    included. ([updated_at], which the store stamps at every update of a
    row, is not a column of the model and is not covered.) *)
Theorem submission_frame env st db :
  let db' := db_after (handleSubmit env st db) in
  (Db.movements db' = Db.movements db
   ∨ ∃ m, Db.movements db' = Db.movements db ++ [m]) ∧
  dom (Db.products db') = dom (Db.products db) ∧
  (∀ pid, pid ≠ FormData.product_id (formData st) →
          Db.products db' !! pid = Db.products db !! pid) ∧
  (∀ pid row', Db.products db' !! pid = Some row' →
     ∃ row, Db.products db !! pid = Some row ∧
            ProductRow.name row' = ProductRow.name row ∧
            ProductRow.category row' = ProductRow.category row ∧
            ProductRow.min_stock row' = ProductRow.min_stock row).
Proof.
  intros db'. subst db'.
  assert (∀ fd (p : Product.t) pid row',
            Db.products (db_updated fd p db) !! pid = Some row' →
            ∃ row, Db.products db !! pid = Some row ∧
                   ProductRow.name row' = ProductRow.name row ∧
                   ProductRow.category row' = ProductRow.category row ∧
                   ProductRow.min_stock row' = ProductRow.min_stock row)
    as Hrows.
  { intros fd p pid row'. unfold db_updated. simpl. rewrite lookup_alter.
    case_decide; [|by eauto]. subst.
    destruct (Db.products db !! FormData.product_id fd) as [row|];
      simpl; [|done].
    intros [= <-]. by exists row. }
  destruct (db_after_cases env st db) as [->|[[p ->]|(u & pr & p & _ & _ & ->)]].
  - split; [by left|]. split; [done|]. split; [done|]. eauto.
  - split; [by left|]. unfold db_updated at 1 2 3. simpl.
    split; [by rewrite dom_alter_L|].
    split; [intros pid Hne; by rewrite lookup_alter_ne|]. apply Hrows.
  - split; [right; by eexists|]. unfold db_recorded, db_updated at 1 2.
    simpl. split; [by rewrite dom_alter_L|].
    split; [intros pid Hne; by rewrite lookup_alter_ne|].
    intros pid row'. apply (Hrows (formData st) p).
Qed.

End submission_frame.

(** ** References, resubmission, missing products *)

Section submission_more.
Import Movements.
Implicit Types (env : Env.t) (st : State) (db : Db.t).

Lemma is_Some_alter {A} (f : A → A) (m : gmap string A) i j :
  is_Some (alter f i m !! j) ↔ is_Some (m !! j).
Proof.
  rewrite lookup_alter. case_decide; [|done]. subst.
  by rewrite fmap_is_Some.
Qed.

Lemma references_hold_step env st db :
  Store.references_hold db →
  Store.references_hold (db_after (handleSubmit env st db)).
Proof.
  unfold Store.references_hold. intros Href.
  assert (∀ fd (p : Product.t),
            Forall (λ m, is_Some (Db.products (db_updated fd p db)
                                    !! MovementRow.product_id m))
                   (Db.movements db)) as Hupd.
  { intros fd p. eapply Forall_impl; [exact Href|].
    intros m Hm. unfold db_updated. simpl. by apply is_Some_alter. }
  destruct (db_after_cases env st db)
    as [->|[[p ->]|(u & pr & p & _ & Hin & ->)]]; [done|apply Hupd|].
  unfold db_recorded. simpl. apply Forall_app. split; [apply Hupd|].
  constructor; [|constructor]. simpl. by apply is_Some_alter.
Qed.

(** X2. Submissions keep the references of the log: if every logged
    movement is the movement of a stored product, this is still so after
    any sequence of submissions from one page, and after submissions from
    several pages, whatever their outcomes. *)
Theorem submissions_keep_references db :
  Store.references_hold db →
  (∀ calls st, Store.references_hold (final_db db (session calls st db))) ∧
  (∀ calls, Store.references_hold (final_db db (pages calls db))).
Proof.
  intros Href. split.
  - intros calls. revert db Href.
    induction calls as [|c calls IH]; intros db Href st; [done|].
    cbn [session]. rewrite final_db_cons. apply IH.
    by apply references_hold_step.
  - intros calls. revert db Href.
    induction calls as [|c calls IH]; intros db Href; [done|].
    cbn [pages]. rewrite final_db_cons. apply IH.
    by apply references_hold_step.
Qed.

Lemma submissions_keep_references_witness :
  Store.references_hold
    (final_db Fixture.db
       (session [(Sample.env, FormData.mk "p1" saida 3 "")]
                (Sample.page Fixture.db (FormData.mk "" entrada 1 ""))
                Fixture.db)).
Proof.
  apply (submissions_keep_references Fixture.db).
  repeat constructor; by eexists.
Defined.

(** X3. After a successful submission the dialog is closed and the form
    is back to its initial values, with no product chosen: submitting it
    again as it is ends at the unknown-product error and writes nothing,
    so the same movement is not recorded twice. (No product has the empty
    id.) *)
Theorem resubmission_is_refused env env' st db :
  succeeded (handleSubmit env st db) →
  find_product "" (products st) = None →
  Db.products db !! "" = None →
  let o := handleSubmit env st db in
  dialogOpen (state_after o) = false ∧
  formData (state_after o) = FormData.mk "" entrada 1 "" ∧
  handleSubmit env' (state_after o) (db_after o)
  = ([toast_error "Produto não encontrado"], state_after o, db_after o).
Proof.
  intros Hs Hlist Hdb o. subst o.
  destruct (succeeded_inv env st db Hs)
    as (u & pr & p & row & Hu & Hpr & Hp & _ & _ & _ & Hrow & Hdb' & Hst).
  rewrite Hst, Hdb'. clear Hst Hdb'.
  set (db2 := db_recorded env (formData st) u pr p db).
  assert (FormData.product_id (formData st) ≠ "") as Hne.
  { intros E. rewrite E in Hrow. congruence. }
  assert (Db.products db2 !! "" = None) as Hdb2.
  { subst db2. unfold db_recorded, db_updated. simpl.
    by rewrite lookup_alter_ne. }
  set (st2 := (fetchProducts env (resetForm (setDialogOpen false st)) db2).2).
  assert (dialogOpen st2 = false ∧ formData st2 = FormData.mk "" entrada 1 ""
          ∧ user st2 = Some u ∧ profile st2 = Some pr
          ∧ find_product "" (products st2) = None) as (Hd & Hf & Hu2 & Hpr2 & Hp2).
  { subst st2. unfold fetchProducts.
    destruct (Env.fetch_error env); simpl; [done|].
    repeat split; try done. by rewrite find_product_select, Hdb2. }
  split; [done|]. split; [done|].
  unfold handleSubmit. rewrite Hu2, Hpr2, Hf. cbn [FormData.product_id].
  by rewrite Hp2.
Qed.

Lemma resubmission_is_refused_witness :
  let st := Sample.page Sample.db (FormData.mk "p1" entrada 5 "") in
  let o := handleSubmit Sample.env st Sample.db in
  handleSubmit Sample.env (state_after o) (db_after o)
  = ([toast_error "Produto não encontrado"], state_after o, db_after o).
Proof.
  intros st o.
  apply (resubmission_is_refused Sample.env Sample.env st Sample.db);
    vm_compute; reflexivity.
Defined.

(** X4. A submission on a product that the list still shows but the
    store no longer has (deleted meanwhile) ends at the error of the
    writes and leaves the page and the store as they were: the balance
    update matches no row and the insertion is refused. *)
Theorem submission_on_missing_product env st db u pr p :
  user st = Some u → profile st = Some pr →
  find_product (FormData.product_id (formData st)) (products st) = Some p →
  ¬ insufficient (formData st) p →
  Db.products db !! FormData.product_id (formData st) = None →
  handleSubmit env st db
  = ([toast_error "Erro ao registrar movimentação"], st, db).
Proof.
  intros Hu Hpr Hp Hok Hnone.
  pose proof (handleSubmit_path env st db) as H.
  destruct H as [[?|?]| | | | |]; simplify_eq; try congruence; try done.
  by rewrite db_updated_absent.
Qed.

Lemma submission_on_missing_product_witness :
  let st := Sample.page Sample.db (FormData.mk "p1" saida 2 "") in
  let db := (ProductsPage.handleDelete true false "p1" Sample.db).2 in
  handleSubmit Sample.env st db
  = ([toast_error "Erro ao registrar movimentação"], st, db).
Proof.
  intros st db.
  apply (submission_on_missing_product Sample.env st db
           (User.mk "u1") (Profile.mk "Ana") (Product.mk "p1" "Notebook" 10));
    try (vm_compute; reflexivity).
  vm_compute. intros [_ H]. discriminate.
Defined.

End submission_more.

(** ** The log and the balances *)

Section ledger.
Import Movements.
Implicit Types (env : Env.t) (st : State) (db : Db.t) (pid : string).

Lemma ledger_app pid l1 l2 :
  Store.ledger pid (l1 ++ l2) = Store.ledger pid l1 + Store.ledger pid l2.
Proof.
  unfold Store.ledger. induction l1 as [|m l1 IH]; simpl; [done|].
  rewrite IH. case_bool_decide; lia.
Qed.

Lemma synced_same_products st st' db :
  products st' = products st →
  MovementsPage.synced st db → MovementsPage.synced st' db.
Proof. intros E H pid. unfold in_sync. rewrite E. apply H. Qed.

(** One submission from a page that shows the store, with a working
    reload and no error of the insertion: either nothing is written, or
    one movement is logged and the balances move by what it says. *)
Lemma submit_keeps_ledger (c : Env.t * FormData.t) st db :
  MovementsPage.synced st db →
  Env.fetch_error c.1 = false → Env.insert_error c.1 = false →
  let o := submit c st db in
  MovementsPage.synced (state_after o) (db_after o) ∧
  (¬ succeeded o ∧ db_after o = db
   ∨ succeeded o ∧
     ∃ m, Db.movements (db_after o) = Db.movements db ++ [m] ∧
          ∀ pid B, Db.quantity_of pid db = Some B →
                   Db.quantity_of pid (db_after o)
                   = Some (B + Store.ledger pid [m])).
Proof.
  intros Hsync Hfetch Hins o. subst o. unfold submit.
  set (st1 := setFormData c.2 st).
  assert (MovementsPage.synced st1 db) as Hsync1
    by by apply (synced_same_products st).
  pose proof (handleSubmit_path c.1 st1 db) as H.
  destruct H as [ | | | | u pr p Hu Hpr Hp Hok Hue [Hie|Hnone]
                 | u pr p row Hu Hpr Hp Hok Hue Hie Hrow ];
    try (split; [done|]; left; split;
         [apply not_succeeded_error | done]).
  - congruence.
  - exfalso. specialize (Hsync1 (FormData.product_id (formData st1))).
    unfold in_sync, Db.quantity_of in Hsync1. by rewrite Hp, Hnone in Hsync1.
  - unfold state_after, db_after. simpl.
    split.
    { subst r. unfold fetchProducts. rewrite Hfetch. simpl.
      intros pid. apply in_sync_reloaded. }
    right. split; [reflexivity|]. eexists. split; [reflexivity|].
    intros pid B HB.
    destruct (decide (pid = FormData.product_id (formData st1))) as [->|Hne].
    + subst db2. rewrite (quantity_of_recorded _ _ _ _ _ _ row) by done.
      specialize (Hsync1 (FormData.product_id (formData st1))).
      unfold in_sync in Hsync1. rewrite Hp, HB in Hsync1.
      injection Hsync1 as Hsync1.
      unfold Store.ledger, Store.signed, newQuantity. simpl.
      rewrite bool_decide_eq_true_2 by done.
      f_equal. destruct (FormData.type c.2); lia.
    + subst db2. unfold db_recorded, db_updated, Db.quantity_of in *. simpl.
      rewrite lookup_alter_ne by done. rewrite HB.
      unfold Store.ledger. simpl.
      rewrite bool_decide_eq_false_2 by done. f_equal. lia.
Qed.

(** X5. From a page that shows the store, with the reload working after
    each success and no error of the insertion, any sequence of
    submissions on any products, accepted or refused, keeps the balances
    and the log together: each success has logged one movement, and the
    quantity of every product has moved by what the new movements of that
    product add up to. *)
Theorem session_keeps_ledger calls : ∀ st db,
  MovementsPage.synced st db →
  Forall (λ c : Env.t * FormData.t,
            Env.fetch_error c.1 = false ∧ Env.insert_error c.1 = false)
         calls →
  let os := session calls st db in
  ∃ new,
    Db.movements (final_db db os) = Db.movements db ++ new ∧
    length new = MovementsPage.successes os ∧
    ∀ pid B, Db.quantity_of pid db = Some B →
             Db.quantity_of pid (final_db db os)
             = Some (B + Store.ledger pid new).
Proof.
  induction calls as [|c calls IH]; intros st db Hsync Hcalls os; subst os.
  { exists []. unfold final_db. simpl. rewrite app_nil_r.
    split; [done|]. split; [done|]. intros pid B ->. f_equal. lia. }
  apply Forall_cons in Hcalls as [[Hfetch Hins] Hcalls].
  cbn [session]. rewrite final_db_cons.
  destruct (submit_keeps_ledger c st db Hsync Hfetch Hins) as [Hsync' Hstep].
  destruct (IH _ _ Hsync' Hcalls) as (new & Hlog & Hlen & Hq).
  unfold MovementsPage.successes in *.
  destruct Hstep as [[Hfail Hdb]|(Hs & m & Hm & Hqm)].
  - exists new. rewrite filter_cons_False by done.
    cbv zeta in Hdb. rewrite Hdb in Hlog, Hlen, Hq |- *. done.
  - exists (m :: new). rewrite filter_cons_True by done.
    rewrite Hlog, Hm, <- app_assoc.
    split; [done|]. split; [cbn [length]; by rewrite Hlen|].
    intros pid B HB. rewrite (Hq pid _ (Hqm pid B HB)).
    pose proof (ledger_app pid [m] new) as Hsum.
    change ([m] ++ new) with (m :: new) in Hsum.
    f_equal. lia.
Qed.

Lemma session_keeps_ledger_witness :
  let calls :=
    [(Sample.env, FormData.mk "p1" saida 4 "");
     (Sample.env, FormData.mk "p2" saida 9 "");
     (Sample.env, FormData.mk "p2" entrada 6 "")] in
  let st := Sample.page Sample.db (FormData.mk "" entrada 1 "") in
  let os := session calls st Sample.db in
  ∃ new,
    Db.movements (final_db Sample.db os) = new ∧ length new = 2%nat ∧
    Db.quantity_of "p2" (final_db Sample.db os)
    = Some (3 + Store.ledger "p2" new).
Proof.
  intros calls st os.
  destruct (session_keeps_ledger calls st Sample.db)
    as (new & Hlog & Hlen & Hq).
  - intros pid. exact (in_sync_reloaded pid st Sample.db).
  - repeat constructor.
  - exists new. split; [exact Hlog|]. split; [exact Hlen|].
    apply Hq. vm_compute. reflexivity.
Defined.

End ledger.

(** ** Loading the product list *)

Section loading.
Import Movements.
Implicit Types (env : Env.t) (st : State) (db : Db.t).

Lemma compare_not_Gt_trans a : ∀ b c,
  String.compare a b ≠ Gt → String.compare b c ≠ Gt →
  String.compare a c ≠ Gt.
Proof.
  induction a as [|x a IH]; intros [|y b] [|z c]; simpl; try done.
  unfold Ascii.compare.
  destruct (N.compare_spec (N_of_ascii x) (N_of_ascii y)),
           (N.compare_spec (N_of_ascii y) (N_of_ascii z)),
           (N.compare_spec (N_of_ascii x) (N_of_ascii z));
    try done; try lia; eauto.
Qed.

Lemma String_leb_trans a b c :
  String.leb a b = true → String.leb b c = true → String.leb a c = true.
Proof.
  unfold String.leb. intros Hab Hbc.
  pose proof (compare_not_Gt_trans a b c) as H.
  destruct (String.compare a b), (String.compare b c),
           (String.compare a c); try done; exfalso; by apply H.
Qed.

#[local] Instance by_name_trans : Transitive Db.by_name.
Proof. intros a b c. apply String_leb_trans. Qed.

#[local] Instance by_name_total : Total Db.by_name.
Proof. intros a b. apply String.leb_total. Qed.

(** X6. When the load of the product list works, the list has one entry
    for each stored product and no other, each with the stored name and
    quantity, in the order of the names; looking a product up by its id
    in the list gives what the store has for it, and nothing for an id
    the store does not have. When the load fails, one error is shown and
    the page is as before. *)
Theorem loaded_list_shows_store env st db :
  let r := fetchProducts env st db in
  (Env.fetch_error env = true →
   r = ([toast_error "Erro ao carregar produtos"], st)) ∧
  (Env.fetch_error env = false →
   r.1 = [] ∧
   (∀ pid, find_product pid (products r.2)
           = (λ row, Product.mk pid (ProductRow.name row)
                                (ProductRow.quantity row))
               <$> Db.products db !! pid) ∧
   length (products r.2) = size (Db.products db) ∧
   NoDup (Product.id <$> products r.2) ∧
   StronglySorted Db.by_name (products r.2) ∧
   dialogOpen r.2 = dialogOpen st ∧ profile r.2 = profile st ∧
   user r.2 = user st ∧ formData r.2 = formData st).
Proof.
  intros r. subst r. unfold fetchProducts.
  split; intros ->; [done|]. simpl.
  split; [done|]. split; [intros pid; apply find_product_select|].
  unfold Db.select_products.
  split.
  { rewrite merge_sort_Permutation, length_fmap.
    apply length_map_to_list. }
  split.
  { rewrite merge_sort_Permutation, <- list_fmap_compose.
    apply (NoDup_fst_map_to_list (Db.products db)). }
  split; [|done]. apply StronglySorted_merge_sort; apply _.
Qed.

Lemma loaded_list_shows_store_witness :
  let r := fetchProducts Sample.env
             (Sample.page Sample.db (FormData.mk "" entrada 1 ""))
             Fixture.db in
  find_product "p2" (products r.2) = Some (Product.mk "p2" "Mouse" 3) ∧
  length (products r.2) = 2%nat.
Proof.
  intros r.
  destruct (loaded_list_shows_store Sample.env
              (Sample.page Sample.db (FormData.mk "" entrada 1 ""))
              Fixture.db) as [_ H].
  destruct H as (_ & Hfind & Hlen & _); [reflexivity|].
  split; [exact (Hfind "p2") | exact Hlen].
Defined.

End loading.

(** ** More on the history filter *)

Section history_more.
Import History.
Variable toLowerCase : string → string.
Implicit Types (st : State) (db : Db.t).

Lemma keeps_inputs st st' m :
  searchTerm st' = searchTerm st → typeFilter st' = typeFilter st →
  keeps toLowerCase st' m = keeps toLowerCase st m.
Proof. unfold keeps. by intros -> ->. Qed.

(** X7. Filtering is idempotent: filtering the filtered list again with
    the same term and type gives the same list. *)
Theorem refiltering_changes_nothing st :
  let st1 := filterMovements toLowerCase st in
  filteredMovements
    (filterMovements toLowerCase
       (HistoryPage.setMovements (filteredMovements st1) st1))
  = filteredMovements st1.
Proof.
  intros st1. subst st1. rewrite !filterMovements_filter. simpl.
  rewrite ?filterMovements_filter, List_filter_filter.
  apply List.filter_ext. intros m.
  rewrite (keeps_inputs st (HistoryPage.setMovements _ _)) by done.
  by destruct (keeps toLowerCase st m).
Qed.

(** X8. The two filters only take rows away and do not depend on their
    order: the rows shown with a term and a type are those shown with
    the term alone that are also shown with the type alone, each of these
    lists being a subsequence of the next and of the fetched list; with
    no term and the type "all" the whole list is shown. *)
Theorem filters_narrow st :
  let shown s := filteredMovements (filterMovements toLowerCase s) in
  let by_term := shown (HistoryPage.setTypeFilter "all" st) in
  let by_type := shown (HistoryPage.setSearchTerm "" st) in
  sublist (shown st) by_term ∧ sublist (shown st) by_type ∧
  (∀ m, m ∈ shown st ↔ m ∈ by_term ∧ m ∈ by_type) ∧
  sublist by_term (movements st) ∧ sublist by_type (movements st) ∧
  shown (HistoryPage.setSearchTerm "" (HistoryPage.setTypeFilter "all" st))
  = movements st.
Proof.
  intros shown by_term by_type. subst shown by_term by_type. cbv beta.
  rewrite !filterMovements_filter. simpl.
  set (ks := λ m, bool_decide (searchTerm st = "")
                  || search_hit toLowerCase (searchTerm st) m).
  set (kt := λ m, bool_decide (typeFilter st = "all")
                  || type_hit (typeFilter st) m).
  set (l := movements st).
  assert (List.filter (keeps toLowerCase st) l
          = List.filter kt (List.filter ks l)) as Hst.
  { rewrite List_filter_filter. done. }
  assert (List.filter (keeps toLowerCase st) l
          = List.filter ks (List.filter kt l)) as Hst'.
  { rewrite List_filter_filter. apply List.filter_ext. intros m.
    unfold keeps. fold (ks m) (kt m). apply andb_comm. }
  assert (List.filter (keeps toLowerCase (HistoryPage.setTypeFilter "all" st)) l
          = List.filter ks l) as Hterm.
  { apply List.filter_ext. intros m. unfold keeps. simpl. apply andb_true_r. }
  assert (List.filter (keeps toLowerCase (HistoryPage.setSearchTerm "" st)) l
          = List.filter kt l) as Htype.
  { apply List.filter_ext. intros m. unfold keeps. simpl. done. }
  rewrite Hterm, Htype.
  split; [rewrite Hst; apply List_filter_sublist|].
  split; [rewrite Hst'; apply List_filter_sublist|].
  split.
  { intros m. rewrite !list_elem_of_In, !List.filter_In.
    unfold keeps. fold (ks m) (kt m). rewrite andb_true_iff. tauto. }
  split; [apply List_filter_sublist|].
  split; [apply List_filter_sublist|].
  apply List_filter_true.
Qed.

(** The rows fetched from the store have one of the two types. *)
Lemma select_movements_types db m :
  m ∈ Store.select_movements db →
  Movement.type m = "entrada" ∨ Movement.type m = "saida".
Proof.
  unfold Store.select_movements. rewrite merge_sort_Permutation.
  intros (r & _ & Hr)%list_elem_of_omap. unfold Store.joined in Hr.
  destruct (Db.products db !! _); [|done]. injection Hr as <-. simpl.
  destruct (MovementRow.type r); [by left | by right].
Qed.

Lemma filter_split_length {A} (f g h : A → bool) (l : list A) :
  (∀ x, x ∈ l → h x = true → (f x = true ∨ g x = true)
                             ∧ ¬ (f x = true ∧ g x = true)) →
  (∀ x, x ∈ l → (f x = true ∨ g x = true) → h x = true) →
  (length (List.filter f l) + length (List.filter g l)
   = length (List.filter h l))%nat.
Proof.
  induction l as [|x l IH]; intros H1 H2; [done|]. simpl.
  assert (length (List.filter f l) + length (List.filter g l)
          = length (List.filter h l))%nat as IH'.
  { apply IH; [intros y Hy; apply H1; by right
              |intros y Hy; apply H2; by right]. }
  clear IH.
  specialize (H1 x (list_elem_of_here _ _)).
  specialize (H2 x (list_elem_of_here _ _)).
  destruct (f x), (g x), (h x); simpl; try lia; exfalso; naive_solver.
Qed.

(** X9. The history of the store splits by type: for any search term, the
    rows shown under "entrada" and the rows shown under "saida" are
    together as many as the rows shown under "all"; no fetched movement
    is hidden by both type filters or shown by both. *)
Theorem type_filters_split_history db (term : string) :
  let shown t :=
    filteredMovements
      (filterMovements toLowerCase
         (History.mk (Store.select_movements db) [] false term t)) in
  (length (shown "entrada") + length (shown "saida")
   = length (shown "all"))%nat.
Proof.
  intros shown. subst shown. cbv beta. rewrite !filterMovements_filter.
  simpl. apply filter_split_length.
  - intros m Hm Hall. apply select_movements_types in Hm.
    unfold keeps, type_hit in *. simpl in *.
    rewrite andb_true_r in Hall. rewrite Hall. simpl.
    rewrite !bool_decide_eq_true. split; [done|].
    intros [E1 E2]. rewrite E1 in E2. discriminate.
  - intros m Hm. unfold keeps, type_hit. simpl.
    rewrite !andb_true_iff. intros [[-> _]|[-> _]]; done.
Qed.

#[local] Instance newest_first_trans : Transitive newest_first.
Proof. intros a b c Hab Hbc. by apply (String_leb_trans _ _ _ Hbc Hab). Qed.

#[local] Instance newest_first_total : Total newest_first.
Proof. intros a b. apply String.leb_total. Qed.

Lemma joined_all db (log : list MovementRow.t) :
  Forall (λ m, is_Some (Db.products db !! MovementRow.product_id m)) log →
  length (omap (Store.joined db) log) = length log.
Proof.
  induction 1 as [|m log [p Hp] _ IH]; [done|]. simpl.
  unfold Store.joined at 1. rewrite Hp. simpl. f_equal. exact IH.
Qed.

(** X10. When the fetch of the history works, the page holds the logged
    movements joined with the name and category of their products,
    newest first, and [loading] has ended; every logged movement is there
    once when the references of the log hold. Whatever term and type are
    set, the rows the filter then shows are newest first. When the fetch
    fails, one error is shown and both lists stay as they were. *)
Theorem history_load failing db st :
  let r := HistoryPage.fetchMovements failing db st in
  loading r.2 = false ∧
  searchTerm r.2 = searchTerm st ∧ typeFilter r.2 = typeFilter st ∧
  (failing = true →
   r.1 = [toast_error "Erro ao carregar histórico"] ∧
   movements r.2 = movements st ∧
   filteredMovements r.2 = filteredMovements st) ∧
  (failing = false →
   r.1 = [] ∧ filteredMovements r.2 = movements r.2 ∧
   StronglySorted newest_first (movements r.2) ∧
   (∀ m, m ∈ movements r.2
         ↔ ∃ row, row ∈ Db.movements db ∧ Store.joined db row = Some m) ∧
   (Store.references_hold db →
    length (movements r.2) = length (Db.movements db)) ∧
   StronglySorted newest_first
     (filteredMovements (HistoryPage.load toLowerCase false db st))).
Proof.
  intros r. subst r.
  assert (StronglySorted newest_first
            (filteredMovements (HistoryPage.load toLowerCase false db st)))
    as Hload.
  { unfold HistoryPage.load. rewrite filterMovements_filter.
    eapply StronglySorted_sublist; [apply List_filter_sublist|].
    unfold HistoryPage.fetchMovements. simpl.
    apply StronglySorted_merge_sort; apply _. }
  unfold HistoryPage.fetchMovements.
  destruct failing; simpl; (split; [done|]); (split; [done|]);
    (split; [done|]); [done|].
  split; [done|]. intros _. split; [done|].
  assert (StronglySorted newest_first (Store.select_movements db)) as Hsorted.
  { apply StronglySorted_merge_sort; apply _. }
  split; [done|]. split; [done|]. split.
  { intros m. unfold Store.select_movements.
    rewrite merge_sort_Permutation. apply list_elem_of_omap. }
  split.
  { intros Href. unfold Store.select_movements.
    rewrite merge_sort_Permutation. by apply joined_all. }
  exact Hload.
Qed.

End history_more.

Lemma history_load_witness :
  let st := HistoryPage.load History.ascii_toLowerCase false Fixture.db
              Fixture.history in
  Movement.id <$> History.filteredMovements st = ["m2"; "m1"] ∧
  StronglySorted History.newest_first (History.filteredMovements st).
Proof.
  intros st. split; [vm_compute; reflexivity|].
  destruct (history_load History.ascii_toLowerCase false Fixture.db
              Fixture.history) as (_ & _ & _ & _ & H).
  destruct H as (_ & _ & _ & _ & _ & H); [reflexivity|]. exact H.
Defined.

Section history_of_submission.
Import Movements.

(** X11. A movement recorded by a successful submission is in the history
    the store then gives: with the id and time of the store, the kind,
    quantity and note of the form, the name of the profile, and the name
    and category of its product. *)
Theorem recorded_movement_in_history (env : Env.t) (st : State) (db : Db.t) :
  succeeded (handleSubmit env st db) →
  ∃ u pr row,
    user st = Some u ∧ profile st = Some pr ∧
    Db.products db !! FormData.product_id (formData st) = Some row ∧
    Movement.mk (Env.gen_random_uuid env)
      (Store.type_text (FormData.type (formData st)))
      (FormData.quantity (formData st)) (Profile.full_name pr)
      (notes_or_null (FormData.notes (formData st))) (Env.now env)
      (ProductRef.mk (ProductRow.name row) (ProductRow.category row))
    ∈ Store.select_movements (db_after (handleSubmit env st db)).
Proof.
  intros Hs.
  destruct (succeeded_inv env st db Hs)
    as (u & pr & p & row & Hu & Hpr & Hp & _ & _ & _ & Hrow & -> & _).
  exists u, pr, row. split; [done|]. split; [done|]. split; [done|].
  unfold Store.select_movements. rewrite merge_sort_Permutation.
  apply list_elem_of_omap.
  exists (Db.stored (Env.gen_random_uuid env) (Env.now env)
            (movement_of (formData st) u pr)).
  split.
  { unfold db_recorded. simpl. apply elem_of_app. right. left. }
  unfold Store.joined, db_recorded, db_updated. simpl.
  by rewrite lookup_alter_eq, Hrow.
Qed.

Lemma recorded_movement_in_history_witness :
  let st := Sample.page Sample.db (FormData.mk "p2" saida 1 "venda") in
  Movement.mk "m1" "saida" 1 "Ana" (Some "venda") "2024-05-01T10:00:00Z"
              (ProductRef.mk "Mouse" "Perifericos")
  ∈ Store.select_movements (db_after (handleSubmit Sample.env st Sample.db)).
Proof.
  intros st.
  destruct (recorded_movement_in_history Sample.env st Sample.db)
    as (u & pr & row & Hu & Hpr & Hrow & H).
  { vm_compute. reflexivity. }
  vm_compute in Hu, Hpr, Hrow. simplify_eq. exact H.
Defined.

End history_of_submission.

(** ** Stock levels on the pages *)

Section stock_levels.
Import Dashboard.

Lemma lowStock_elem allProducts p :
  p ∈ lowStock allProducts →
  p ∈ default [] allProducts ∧ is_low p = true.
Proof.
  unfold lowStock, slice0. intros Hp.
  apply (sublist_subseteq _ _ (sublist_take _ 5)) in Hp.
  rewrite (sort_perm DashboardProduct.quantity) in Hp.
  apply list_elem_of_In, List.filter_In in Hp as [Hp ?].
  by apply list_elem_of_In in Hp.
Qed.

Lemma lowStock_length allProducts :
  length (lowStock allProducts)
  = (5 `min` length (List.filter is_low (default [] allProducts)))%nat.
Proof.
  unfold lowStock, slice0. rewrite length_take.
  by rewrite (sort_perm DashboardProduct.quantity).
Qed.

(** X12. No product of the low-stock list is shown as "Normal": a product
    listed there with quantity zero is shown as "Crítico", any other as
    "Baixo". *)
Theorem low_stock_is_never_normal allProducts p :
  p ∈ lowStock allProducts →
  DashboardProduct.quantity p = 0
  ∧ DashboardPage.status_of p = Status.mk "Crítico" destructive
  ∨ DashboardProduct.quantity p ≠ 0
    ∧ DashboardPage.status_of p = Status.mk "Baixo" warning.
Proof.
  intros [_ Hlow]%lowStock_elem. unfold is_low in Hlow.
  unfold DashboardPage.status_of, DashboardPage.getStockStatus.
  case_bool_decide; [by left|]. right. by rewrite Hlow.
Qed.

Lemma low_stock_is_never_normal_witness :
  DashboardPage.status_of (Sample.stock "c" 0 5)
  = Status.mk "Crítico" destructive.
Proof.
  destruct (low_stock_is_never_normal (Some Sample.allProducts)
              (Sample.stock "c" 0 5)) as [[_ H]|[H _]].
  - vm_compute. left.
  - exact H.
  - by contradict H.
Defined.

(** X13. The low-stock card is in its warning variant exactly when some
    fetched product has a quantity at most its minimum, however many
    there are: the cut to five never empties the list. It is in its
    success variant when there is none, or when the fetch gave no
    data. *)
Theorem card_warns_iff_some_low allProducts :
  (DashboardPage.card_variant (lowStock allProducts) = warning
   ↔ ∃ p, p ∈ default [] allProducts
          ∧ DashboardProduct.quantity p ≤ DashboardProduct.min_stock p) ∧
  (DashboardPage.card_variant (lowStock allProducts) = success
   ↔ ∀ p, p ∈ default [] allProducts →
          DashboardProduct.min_stock p < DashboardProduct.quantity p) ∧
  DashboardPage.card_variant (lowStock None) = success.
Proof.
  assert (lowStock allProducts = []
          ↔ ∀ p, p ∈ default [] allProducts →
                 DashboardProduct.min_stock p < DashboardProduct.quantity p)
    as Hnil.
  { rewrite <- length_zero_iff_nil, lowStock_length.
    set (l := default [] allProducts). split.
    - intros Hlen p Hp.
      destruct (Z.leb_spec (DashboardProduct.quantity p)
                  (DashboardProduct.min_stock p)) as [Hle|]; [|done].
      assert (p ∈ List.filter is_low l) as Hin.
      { apply list_elem_of_In, List.filter_In. split;
          [by apply list_elem_of_In | by apply Z.leb_le]. }
      destruct (List.filter is_low l); [by apply elem_of_nil in Hin|].
      simpl in Hlen. lia.
    - intros Hall. destruct (List.filter is_low l) as [|p k] eqn:E; [done|].
      assert (p ∈ List.filter is_low l) as Hin by (rewrite E; left).
      apply list_elem_of_In, List.filter_In in Hin as [Hin Hlow].
      apply list_elem_of_In, Hall in Hin. apply Z.leb_le in Hlow. lia. }
  unfold DashboardPage.card_variant.
  split; [|split; [|done]].
  - destruct (lowStock allProducts) as [|p k] eqn:E; simpl.
    + split; [done|]. intros (p & Hp & Hle).
      pose proof (proj1 Hnil eq_refl p Hp). lia.
    + split; [|done]. intros _.
      assert (p ∈ lowStock allProducts) as Hin by (rewrite E; left).
      apply lowStock_elem in Hin as [Hin Hlow]. apply Z.leb_le in Hlow.
      by exists p.
  - destruct (lowStock allProducts) as [|p k] eqn:E; simpl.
    + split; [|done]. intros _. by apply Hnil.
    + split; [done|]. intros Hall. by apply Hnil in Hall.
Qed.

(** X14. The stock badge of the product table and the stock status of the
    dashboard agree: for every quantity and minimum they have the same
    variant, and the same text except at quantity zero ("Esgotado" there,
    "Crítico" here). Zero is critical whatever the minimum; the variant is
    the normal one exactly for a quantity that is not zero and above the
    minimum. *)
Theorem badge_and_status_agree (quantity minStock : Z) :
  let badge := ProductsPage.getStockBadge quantity minStock in
  let status := DashboardPage.getStockStatus quantity minStock in
  Status.variant badge = Status.variant status ∧
  (quantity ≠ 0 → badge = status) ∧
  (quantity = 0 → badge = Status.mk "Esgotado" destructive
                  ∧ status = Status.mk "Crítico" destructive) ∧
  (Status.variant status = success ↔ quantity ≠ 0 ∧ minStock < quantity) ∧
  (Status.variant status = warning ↔ quantity ≠ 0 ∧ quantity ≤ minStock).
Proof.
  unfold ProductsPage.getStockBadge, DashboardPage.getStockStatus.
  case_bool_decide as H0; [|destruct (Z.leb_spec quantity minStock)];
    simpl; repeat split; intros; try done; try lia;
    repeat match goal with H : _ ∧ _ |- _ => destruct H end;
    try done; try lia.
Qed.

End stock_levels.

(** ** Ties in the low-stock list *)

Section ties.
Import Dashboard.
Context {A : Type} (key : A → Z).
Implicit Types (x : A) (l : list A) (k : Z).

Lemma insert_stable_ties k x l :
  List.filter (λ y, key y =? k)
    (insert_stable (λ a b, key a - key b) x l)
  = List.filter (λ y, key y =? k) (x :: l).
Proof.
  induction l as [|y l IH]; [done|]. cbn [insert_stable].
  destruct (key x - key y <=? 0) eqn:Hc; [done|].
  apply Z.leb_gt in Hc. cbn [List.filter] in *. rewrite IH.
  destruct (Z.eqb_spec (key x) k), (Z.eqb_spec (key y) k); try done; lia.
Qed.

Lemma sort_ties k l :
  List.filter (λ y, key y =? k) (sort (λ a b, key a - key b) l)
  = List.filter (λ y, key y =? k) l.
Proof.
  induction l as [|x l IH]; [done|]. cbn [sort foldr].
  change (foldr (insert_stable (λ a b, key a - key b)) [] l)
    with (sort (λ a b, key a - key b) l).
  rewrite insert_stable_ties. cbn [List.filter]. by rewrite IH.
Qed.

Lemma filter_take_prefix (f : A → bool) (n : nat) l :
  List.filter f (take n l) `prefix_of` List.filter f l.
Proof.
  rewrite <- (take_drop n l) at 2. rewrite List.filter_app.
  by apply prefix_app_r.
Qed.

End ties.

Section ties_low_stock.
Import Dashboard.

(** X15. Products of the same quantity keep, in the low-stock list, the
    order in which the store returned them: those of the list with a given
    quantity are the first of the fetched low-stock products with that
    quantity, in their fetched order. *)
Theorem low_stock_keeps_fetched_order_of_ties allProducts (q : Z) :
  List.filter (λ p, DashboardProduct.quantity p =? q) (lowStock allProducts)
  `prefix_of`
  List.filter (λ p, DashboardProduct.quantity p =? q)
    (List.filter is_low (default [] allProducts)).
Proof.
  unfold lowStock, slice0.
  rewrite <- (sort_ties DashboardProduct.quantity q
                (List.filter is_low (default [] allProducts))).
  apply filter_take_prefix.
Qed.

End ties_low_stock.

(** ** Deleting a product *)

Section deleting.
Implicit Types (db : Db.t) (id pid : string).

(** X16. Deleting a product, once confirmed and accepted, removes the
    product and every movement logged for it and nothing else: the other
    products, their movements and the order of those stay, what the log
    adds up to for any other product is unchanged, the references of the
    log still hold, and a product list loaded afterwards no longer has
    the product. Without the confirmation, or when the deletion reports
    an error, the store is unchanged. *)
Theorem delete_removes_product_and_its_movements confirmed failing id db :
  let r := ProductsPage.handleDelete confirmed failing id db in
  (confirmed = false → r = ([], db)) ∧
  (confirmed = true → failing = true →
   r = ([toast_error "Erro ao excluir produto"], db)) ∧
  (confirmed = true → failing = false →
   r.1 = [toast_success "Produto excluído com sucesso!"] ∧
   Db.products r.2 !! id = None ∧
   (∀ pid, pid ≠ id → Db.products r.2 !! pid = Db.products db !! pid) ∧
   (∀ m, m ∈ Db.movements r.2
         ↔ m ∈ Db.movements db ∧ MovementRow.product_id m ≠ id) ∧
   sublist (Db.movements r.2) (Db.movements db) ∧
   (∀ pid, pid ≠ id →
           Store.ledger pid (Db.movements r.2)
           = Store.ledger pid (Db.movements db)) ∧
   (Store.references_hold db → Store.references_hold r.2) ∧
   Movements.find_product id (Db.select_products r.2) = None).
Proof.
  intros r. subst r. unfold ProductsPage.handleDelete, Store.delete_product.
  split; [by intros ->|]. split; [by intros -> ->|]. intros -> ->. simpl.
  split; [done|]. split; [apply lookup_delete_eq|].
  split; [intros pid Hne; by apply lookup_delete_ne|].
  split; [intros m; rewrite list_elem_of_filter; tauto|].
  split; [apply sublist_filter|]. split.
  { intros pid Hne. unfold Store.ledger.
    induction (Db.movements db) as [|m log IH]; [done|].
    destruct (decide (MovementRow.product_id m = id)) as [E|E].
    - rewrite filter_cons_False by (intros H; by apply H). simpl.
      rewrite bool_decide_eq_false_2 by congruence. done.
    - rewrite filter_cons_True by done. simpl. by rewrite IH. }
  split.
  { unfold Store.references_hold. simpl. intros Href.
    apply Forall_forall. intros m [Hne Hm]%list_elem_of_filter.
    rewrite Forall_forall in Href. rewrite lookup_delete_ne by done.
    by apply Href. }
  rewrite find_product_select. simpl. by rewrite lookup_delete_eq.
Qed.

Lemma delete_removes_product_and_its_movements_witness :
  let r := ProductsPage.handleDelete true false "p2" Fixture.db in
  MovementRow.id <$> Db.movements r.2 = ["m1"] ∧
  Store.ledger "p1" (Db.movements r.2) = Store.ledger "p1" (Db.movements Fixture.db).
Proof.
  intros r. split; [vm_compute; reflexivity|].
  destruct (delete_removes_product_and_its_movements true false "p2"
              Fixture.db) as (_ & _ & H).
  destruct H as (_ & _ & _ & _ & _ & H & _); [reflexivity..|].
  apply H. discriminate.
Defined.

End deleting.

(** ** What the pages show after a submission *)

Section shown_after.
Import Movements.
Implicit Types (env : Env.t) (st : State) (db : Db.t).

(** X17. After a successful submission whose reload works, the product
    list shows every product with its stored quantity, the product of the
    movement with the quantity just written. When the reload fails the
    list is the one from before, and still shows the old quantity. *)
Theorem list_after_success env st db :
  succeeded (handleSubmit env st db) →
  let o := handleSubmit env st db in
  let pid := FormData.product_id (formData st) in
  ∃ p, find_product pid (products st) = Some p ∧
       (Env.fetch_error env = false →
        MovementsPage.synced (state_after o) (db_after o) ∧
        Product.quantity <$> find_product pid (products (state_after o))
        = Some (newQuantity (formData st) p)) ∧
       (Env.fetch_error env = true →
        products (state_after o) = products st ∧
        Product.quantity <$> find_product pid (products (state_after o))
        = Some (Product.quantity p) ∧
        Db.quantity_of pid (db_after o) = Some (newQuantity (formData st) p)).
Proof.
  intros Hs o pid. subst o pid.
  destruct (succeeded_inv env st db Hs)
    as (u & pr & p & row & Hu & Hpr & Hp & _ & _ & _ & Hrow & -> & ->).
  exists p. split; [done|]. unfold fetchProducts.
  split; intros ->; simpl.
  - split; [intros pid; apply in_sync_reloaded|].
    rewrite find_product_select. unfold db_recorded, db_updated. simpl.
    by rewrite lookup_alter_eq, Hrow.
  - split; [done|]. rewrite Hp. split; [done|].
    by apply (quantity_of_recorded _ _ _ _ _ _ row).
Qed.

Lemma list_after_success_witness :
  let st := Sample.page Sample.db (FormData.mk "p1" saida 4 "") in
  let o := handleSubmit Sample.env st Sample.db in
  Product.quantity <$> find_product "p1" (products (state_after o)) = Some 6.
Proof.
  intros st o.
  destruct (list_after_success Sample.env st Sample.db)
    as (p & Hp & H & _).
  { vm_compute. reflexivity. }
  vm_compute in Hp. simplify_eq.
  destruct H as [_ H]; [reflexivity|]. exact H.
Defined.

End shown_after.

(** ** The recent movements of the dashboard *)

Section recent.
Import DashboardPage.
Implicit Types (db : Db.t).

(** X18. The recent movements of the dashboard are at most five, newest
    first, each a logged movement with the name of its product; when the
    references of the log hold they are five as soon as five movements
    are logged, and no movement left out is newer than one shown. When
    the call gives no data the list is empty. *)
Theorem recent_movements_are_the_newest db :
  let recent := recentMovements false db in
  (length recent ≤ 5)%nat ∧
  StronglySorted recent_first recent ∧
  (∀ r, r ∈ recent →
        ∃ row p, row ∈ Db.movements db ∧
                 Db.products db !! MovementRow.product_id row = Some p ∧
                 recent_id r = MovementRow.id row ∧
                 recent_created_at r = MovementRow.created_at row ∧
                 recent_product_name r = ProductRow.name p) ∧
  (Store.references_hold db →
   length recent = (5 `min` length (Db.movements db))%nat) ∧
  (∀ r m, r ∈ recent → m ∈ drop 5 (Store.select_movements db) →
          String.leb (Movement.created_at m) (recent_created_at r) = true) ∧
  recentMovements true db = [].
Proof.
  intros recent. subst recent. unfold recentMovements.
  assert (StronglySorted History.newest_first (Store.select_movements db))
    as Hsorted.
  { apply StronglySorted_merge_sort; [|apply newest_first_total].
    apply newest_first_trans. }
  split; [rewrite length_fmap, length_take; lia|]. split.
  { apply StronglySorted_fmap with (R1 := History.newest_first);
      [by intros ??|].
    eapply StronglySorted_sublist; [apply sublist_take | done]. }
  split.
  { intros r (m & -> & Hm)%list_elem_of_fmap.
    apply (sublist_subseteq _ _ (sublist_take _ 5)) in Hm.
    unfold Store.select_movements in Hm.
    rewrite merge_sort_Permutation in Hm.
    apply list_elem_of_omap in Hm as (row & Hrow & Hj).
    unfold Store.joined in Hj.
    destruct (Db.products db !! MovementRow.product_id row) as [p|] eqn:Hp;
      [|done].
    injection Hj as <-. by exists row, p. }
  split.
  { intros Href. rewrite length_fmap, length_take.
    unfold Store.select_movements. rewrite merge_sort_Permutation.
    by rewrite joined_all. }
  split; [|done].
  intros r m (m' & -> & Hm')%list_elem_of_fmap Hm.
  apply (StronglySorted_app_1_elem_of History.newest_first
           (take 5 (Store.select_movements db))
           (drop 5 (Store.select_movements db))); [|done..].
  by rewrite take_drop.
Qed.

Lemma recent_movements_are_the_newest_witness :
  recent_id <$> recentMovements false Fixture.db = ["m2"; "m1"] ∧
  length (recentMovements false Fixture.db) = 2%nat.
Proof.
  split; [vm_compute; reflexivity|].
  destruct (recent_movements_are_the_newest Fixture.db)
    as (_ & _ & _ & H & _).
  apply H. repeat constructor; by eexists.
Defined.

End recent.

(** ** Submissions on different products *)

Section different_products.
Import Movements.
Implicit Types (db : Db.t) (sched : list Write) (pid : string).

Lemma apply_write_dom db w :
  dom (Db.products (apply_write db w)) = dom (Db.products db).
Proof.
  destruct w as [env r|env r]; simpl.
  - unfold Db.update_quantity. destruct (Env.update_error env); [done|].
    simpl. apply dom_alter_L.
  - unfold Db.insert_movement. destruct (Env.insert_error env); [done|].
    destruct (negb _); [done|].
    by destruct (Db.products db !! _).
Qed.

Lemma run_writes_length (K : gset string) sched : ∀ db,
  dom (Db.products db) = K →
  Forall (λ w, match w with
               | update_of _ _ => True
               | insert_of env r =>
                   Env.insert_error env = false ∧
                   req_uid r = MovementInsert.responsible_id (req_movement r) ∧
                   MovementInsert.product_id (req_movement r) ∈ K
               end) sched →
  length (Db.movements (run_writes sched db))
  = (length (Db.movements db) + length (filter is_insert sched))%nat.
Proof.
  unfold run_writes.
  induction sched as [|w sched IH]; intros db HK Hall; [simpl; lia|].
  apply Forall_cons in Hall as [Hw Hall]. cbn [foldl].
  rewrite IH; [| by rewrite apply_write_dom | done].
  destruct w as [env r|env r].
  - rewrite filter_cons_False by (by intros []). f_equal. simpl.
    unfold Db.update_quantity. by destruct (Env.update_error env).
  - rewrite filter_cons_True by done. destruct Hw as (Hie & Huid & Hin).
    rewrite <- HK in Hin. apply elem_of_dom in Hin as [row Hrow].
    simpl. rewrite Hie, (insert_movement_ok _ _ _ _ _ row) by done.
    simpl. rewrite length_app. simpl. lia.
Qed.

Lemma run_writes_quantity pid (v : Z) sched : ∀ db,
  Forall (λ w, match w with
               | update_of env r =>
                   MovementInsert.product_id (req_movement r) = pid →
                   Env.update_error env = false ∧ req_quantity r = v
               | insert_of _ _ => True
               end) sched →
  is_Some (Db.products db !! pid) →
  Db.quantity_of pid (run_writes sched db) = Some v
  ∨ Forall (λ w, match w with
                 | update_of _ r =>
                     MovementInsert.product_id (req_movement r) ≠ pid
                 | insert_of _ _ => True
                 end) sched
    ∧ Db.quantity_of pid (run_writes sched db) = Db.quantity_of pid db.
Proof.
  unfold run_writes.
  induction sched as [|w sched IH]; intros db Hall Hsome.
  { right. by split. }
  apply Forall_cons in Hall as [Hw Hall]. cbn [foldl].
  assert (is_Some (Db.products (apply_write db w) !! pid)) as Hsome'.
  { apply elem_of_dom. rewrite apply_write_dom. by apply elem_of_dom. }
  destruct (IH _ Hall Hsome') as [Hq|[Hno Hq]]; [by left|].
  rewrite Hq. destruct w as [env r|env r].
  - destruct (decide (MovementInsert.product_id (req_movement r) = pid))
      as [E|E].
    + left. destruct (Hw E) as [Hue Hv]. destruct Hsome as [row Hrow].
      simpl. rewrite Hue, E, Hv. simpl.
      by apply (quantity_of_alter _ _ _ _ row).
    + right. split; [by constructor|]. simpl.
      unfold Db.update_quantity. destruct (Env.update_error env); [done|].
      simpl. unfold Db.quantity_of. simpl. by rewrite lookup_alter_ne.
  - right. split; [by constructor|]. simpl.
    unfold Db.insert_movement. by repeat case_match.
Qed.

Lemma writes_of_ready db (c : Env.t * State) :
  MovementsPage.ready db c →
  ∃ u pr p,
    find_product (MovementsPage.product_of c) (products c.2) = Some p ∧
    writes_of c.1 c.2
    = [update_of c.1 (mk_requests (newQuantity (formData c.2) p) (User.id u)
                        (movement_of (formData c.2) u pr));
       insert_of c.1 (mk_requests (newQuantity (formData c.2) p) (User.id u)
                        (movement_of (formData c.2) u pr))].
Proof.
  intros (Hauth & Hue & Hie & _ & p & Hp & Hok).
  apply authenticated_inv in Hauth as (u & pr & Hu & Hpr).
  exists u, pr, p. split; [done|].
  unfold writes_of, requests_of, MovementsPage.product_of in *.
  rewrite Hu, Hpr, Hp.
  destruct (bool_decide _ && _) eqn:Hg;
    [by apply insufficient_guard in Hg|].
  by rewrite Hue.
Qed.

(** X19. Submissions from several pages, each on a different product the
    store has and each passing its checks, do not disturb one another:
    in whatever order their writes reach the store, every one of them has
    logged its movement, and every product has the quantity its page
    computed. *)
Theorem different_products_do_not_interfere calls db sched :
  NoDup (MovementsPage.product_of <$> calls) →
  Forall (MovementsPage.ready db) calls →
  interleaving ((λ c : Env.t * State, writes_of c.1 c.2) <$> calls) sched →
  length (Db.movements (run_writes sched db))
  = (length (Db.movements db) + length calls)%nat ∧
  ∀ c p, c ∈ calls →
         find_product (MovementsPage.product_of c) (products c.2) = Some p →
         Db.quantity_of (MovementsPage.product_of c) (run_writes sched db)
         = Some (newQuantity (formData c.2) p).
Proof.
  intros Hnd Hready Hsched. apply interleaving_perm in Hsched.
  set (ws := concat ((λ c : Env.t * State, writes_of c.1 c.2) <$> calls))
    in Hsched.
  assert (∀ w, w ∈ ws → ∃ c u pr p,
            c ∈ calls ∧
            find_product (MovementsPage.product_of c) (products c.2) = Some p ∧
            let r := mk_requests (newQuantity (formData c.2) p) (User.id u)
                       (movement_of (formData c.2) u pr) in
            (w = update_of c.1 r ∨ w = insert_of c.1 r)) as Hws.
  { intros w Hw. subst ws.
    apply list_elem_of_In, in_concat in Hw as (l & Hl & Hw).
    apply list_elem_of_In, list_elem_of_fmap in Hl as (c & -> & Hc).
    rewrite Forall_forall in Hready.
    destruct (writes_of_ready db c (Hready c Hc)) as (u & pr & p & Hp & E).
    rewrite E in Hw. exists c, u, pr, p. split; [done|]. split; [done|].
    cbv zeta. destruct Hw as [<-|[<-|[]]]; [by left | by right]. }
  split.
  - rewrite (run_writes_length (dom (Db.products db))); [|done|].
    + f_equal. rewrite Hsched. subst ws. clear Hws Hsched Hnd.
      induction Hready as [|c calls Hc _ IH]; [done|].
      destruct (writes_of_ready db c Hc) as (u & pr & p & _ & E).
      rewrite fmap_cons. cbn [concat]. rewrite E. simpl. by rewrite IH.
    + rewrite Hsched. apply Forall_forall. intros w Hw.
      destruct (Hws w Hw) as (c & u & pr & p & Hc & _ & [->| ->]); [done|].
      rewrite Forall_forall in Hready.
      destruct (Hready c Hc) as (_ & _ & Hie & Hsome & _).
      split; [done|]. split; [done|]. by apply elem_of_dom.
  - intros c p Hc Hp.
    rewrite Forall_forall in Hready.
    destruct (writes_of_ready db c (Hready c Hc)) as (u & pr & p' & Hp' & E).
    assert (p' = p) as -> by congruence.
    destruct (Hready c Hc) as (_ & Hue & _ & Hsome & _).
    destruct (run_writes_quantity (MovementsPage.product_of c)
                (newQuantity (formData c.2) p) sched db)
      as [Hq|[Hno _]]; [| done | done |].
    + rewrite Hsched. apply Forall_forall. intros w Hw.
      destruct (Hws w Hw) as (c' & u' & pr' & q & Hc' & Hq & [->| ->]);
        [|done].
      simpl. intros Hpid.
      assert (c' = c) as ->.
      { clear -Hnd Hc Hc' Hpid. unfold MovementsPage.product_of in *.
        induction calls as [|x calls IH]; [by apply elem_of_nil in Hc|].
        rewrite fmap_cons in Hnd. apply NoDup_cons in Hnd as [Hx Hnd].
        apply elem_of_cons in Hc as [->|Hc];
          apply elem_of_cons in Hc' as [->|Hc']; try done.
        - exfalso. apply Hx. rewrite <- Hpid.
          by apply (list_elem_of_fmap_2
                      (λ c, FormData.product_id (formData c.2))).
        - exfalso. apply Hx. rewrite Hpid.
          by apply (list_elem_of_fmap_2
                      (λ c, FormData.product_id (formData c.2))).
        - by apply IH. }
      assert (q = p) as -> by congruence. done.
    + exfalso. rewrite Forall_forall in Hno.
      assert (update_of c.1
                (mk_requests (newQuantity (formData c.2) p) (User.id u)
                   (movement_of (formData c.2) u pr)) ∈ sched) as Hin.
      { rewrite Hsched. subst ws.
        apply list_elem_of_In, in_concat. eexists. split.
        - apply list_elem_of_In, list_elem_of_fmap. exists c.
          split; [symmetry; exact E | done].
        - by left. }
      by apply (Hno _ Hin).
Qed.

Lemma different_products_do_not_interfere_witness :
  let calls :=
    [(Sample.env, Sample.page Sample.db (FormData.mk "p1" saida 4 ""));
     (Sample.env, Sample.page Sample.db (FormData.mk "p2" entrada 7 ""))] in
  let sched := concat ((λ c : Env.t * State, writes_of c.1 c.2) <$> calls) in
  length (Db.movements (run_writes sched Sample.db)) = 2%nat.
Proof.
  intros calls sched.
  apply (different_products_do_not_interfere calls Sample.db sched).
  - apply (bool_decide_unpack _). vm_compute. exact I.
  - repeat constructor; try (by eexists).
    + eexists. split; [vm_compute; reflexivity|]. intros [_ H]. done.
    + eexists. split; [vm_compute; reflexivity|]. intros [H _]. done.
  - apply (interleaving_next [] _ _ _).
    apply (interleaving_next [] _ _ _).
    apply (interleaving_next [[]] _ _ []).
    apply (interleaving_next [[]] _ _ []).
    constructor. repeat constructor.
Defined.

End different_products.
